(** * proctor: classroom orchestration over the AWS adapter

    A shallow embedding of [proctor/aws/ec2.go] (the key-pair part of the
    provider adapter) and of the controller that sequences adapter calls
    into the create / destroy / list / describe workflows.

    Go values are modelled as follows.
    - [string] is a sequence of bytes: Rocq's [string] (a list of [ascii]).
    - [int] is a mathematical integer ([Z]); the only operations the code
      applies to it are [strconv.Itoa], [strconv.Atoi] and the [%d] verb.
    - [error] is its message; a nil error is [None].
    - [map[string]string] and [[]string] are reference types that may be
      nil: [option (gmap string string)] and [option (list string)].
    - an interface is a record of operations over an abstract provider
      state; every call through it is appended to a trace. *)

From Stdlib Require Import ZArith Ascii String DecimalString DecimalPos Lia.
From stdpp Require Import base option list gmap strings sorting.

Set Warnings "-register-all".

Local Open Scope Z_scope.
Local Open Scope string_scope.

(** ** The Go standard library, as far as the program uses it *)

Module Go.

Definition error := string.

(** [(T, error)] results are kept as Go returns them: both components,
    the error being [None] for nil. *)
Definition failed {A} (r : A * option error) : bool :=
  match r.2 with Some _ => true | None => false end.

(** *** Characters *)

Definition byte_in (lo hi c : ascii) : bool :=
  (N_of_ascii lo <=? N_of_ascii c)%N && (N_of_ascii c <=? N_of_ascii hi)%N.

Definition is_digit (c : ascii) : bool := byte_in "0" "9" c.

Definition is_letter (c : ascii) : bool :=
  byte_in "a" "z" c || byte_in "A" "Z" c.

Definition quote_char : ascii := "034"%char.
Definition tab_char : ascii := "009"%char.
Definition newline_char : ascii := "010"%char.

Definition tab : string := String tab_char "".
Definition newline : string := String newline_char "".

(** *** package strings *)

(** [strings.HasPrefix(s, prefix)] *)
Fixpoint HasPrefix (s pre : string) : bool :=
  match pre, s with
  | "", _ => true
  | String p pre', String c s' => bool_decide (p = c) && HasPrefix s' pre'
  | String _ _, "" => false
  end.

(** [strings.TrimPrefix(s, prefix)]: [s] without the leading [prefix],
    and [s] itself when it does not start with [prefix]. *)
Definition TrimPrefix (s pre : string) : string :=
  if HasPrefix s pre
  then String.substring (String.length pre)
                        (String.length s - String.length pre)%nat s
  else s.

(** [strings.Join(elems, sep)] *)
Fixpoint Join (elems : list string) (sep : string) : string :=
  match elems with
  | [] => ""
  | [x] => x
  | x :: rest => x +:+ sep +:+ Join rest sep
  end.

(** *** package strconv *)

(** [strconv.Itoa(i)]: the decimal digits of [i], with a leading minus
    sign for a negative number. *)
Definition Itoa (i : Z) : string := NilZero.string_of_int (Z.to_int i).

Definition intSize : Z := 64.
Definition minInt : Z := - 2 ^ (intSize - 1).
Definition maxInt : Z := 2 ^ (intSize - 1) - 1.

(** The value of a string of decimal digits, most significant first;
    [None] at the first byte that is not a digit. *)
Fixpoint digits_value (acc : Z) (s : string) : option Z :=
  match s with
  | "" => Some acc
  | String c rest =>
      if is_digit c
      then digits_value (10 * acc + Z.of_N (N_of_ascii c - N_of_ascii "0")) rest
      else None
  end.

Definition syntax_error (s : string) : error :=
  "strconv.Atoi: parsing " +:+ String quote_char s +:+ String quote_char ""
    +:+ ": invalid syntax".
Definition range_error (s : string) : error :=
  "strconv.Atoi: parsing " +:+ String quote_char s +:+ String quote_char ""
    +:+ ": value out of range".

(** [strconv.Atoi(s)]: an optional sign, then one or more decimal digits
    and nothing else; the value has to fit an [int]. The number returned
    next to an error is never read by the program and is given as 0. *)
Definition Atoi (s : string) : Z * option error :=
  match s with
  | "" => (0, Some (syntax_error s))
  | String c rest =>
      let signed := bool_decide (c = "-"%char) || bool_decide (c = "+"%char) in
      let body := if signed then rest else s in
      match body with
      | "" => (0, Some (syntax_error s))
      | _ =>
          match digits_value 0 body with
          | None => (0, Some (syntax_error s))
          | Some n =>
              let v := if bool_decide (c = "-"%char) then - n else n in
              if ((minInt <=? v) && (v <=? maxInt))%Z then (v, None)
              else (0, Some (range_error s))
          end
      end
  end.

(** *** package regexp *)

(** [requiredPattern] is [^[a-zA-Z][-a-zA-Z0-9]*$]. Without flags [^] and
    [$] match only at the two ends of the text, and both classes hold
    ASCII bytes only, so a text matches when it is one letter followed
    by bytes that are each a hyphen, a letter or a digit. *)
Definition requiredPattern : string := "^[a-zA-Z][-a-zA-Z0-9]*$".

Definition name_head (c : ascii) : bool := is_letter c.
Definition name_tail (c : ascii) : bool :=
  bool_decide (c = "-"%char) || is_letter c || is_digit c.

Fixpoint all_bytes (p : ascii -> bool) (s : string) : bool :=
  match s with
  | "" => true
  | String c rest => p c && all_bytes p rest
  end.

(** [regexp.MustCompile(requiredPattern).MatchString(name)] *)
Definition MatchString (name : string) : bool :=
  match name with
  | "" => false
  | String c rest => name_head c && all_bytes name_tail rest
  end.


(** *** Reference types that may be nil *)

(** A [map[string]string]; [None] is the nil map. Reading a nil map
    behaves as reading an empty one. *)
Definition strmap : Type := option (gmap string string).

(** [v, ok := m[k]] *)
Definition index2 (m : strmap) (k : string) : string * bool :=
  match m with
  | Some t => match t !! k with Some v => (v, true) | None => ("", false) end
  | None => ("", false)
  end.

(** [m[k]]: the zero value [""] for a key that is absent. *)
Definition index (m : strmap) (k : string) : string := (index2 m k).1.

(** A [[]string]; [None] is the nil slice. *)
Definition strslice : Type := option (list string).

Definition elements (s : strslice) : list string := default [] s.

(** *** package encoding/json *)

Inductive json : Type :=
| JNull
| JNumber (i : Z)
| JString (s : string)
| JArray (elems : list json)
| JObject (members : list (string * json)).

Definition hex_digit (n : N) : ascii :=
  default "0"%char (String.get (N.to_nat n) "0123456789abcdef").

(** A byte below 0x80 inside a string literal, as [json.Marshal] writes
    it (HTML escaping is on). *)
Definition escape_ascii (b : ascii) : string :=
  let n := N_of_ascii b in
  if bool_decide (b = quote_char) then String "\" (String quote_char "")
  else if bool_decide (b = "\"%char) then "\\"
  else if (n =? 8)%N then "\b"
  else if (n =? 12)%N then "\f"
  else if (n =? 10)%N then "\n"
  else if (n =? 13)%N then "\r"
  else if (n =? 9)%N then "\t"
  else if (n <? 32)%N || bool_decide (b = "<"%char) || bool_decide (b = ">"%char)
          || bool_decide (b = "&"%char)
  then "\u00" +:+ String (hex_digit (n / 16)) (String (hex_digit (n mod 16)) "")
  else String b "".

Definition between (lo hi : N) (b : ascii) : bool :=
  (lo <=? N_of_ascii b)%N && (N_of_ascii b <=? hi)%N.
Definition cont (b : ascii) : bool := between 128 191 b.

(** The well-formed UTF-8 sequences of two, three and four bytes. *)
Definition utf8_2 (b0 b1 : ascii) : bool := between 194 223 b0 && cont b1.
Definition utf8_3 (b0 b1 b2 : ascii) : bool :=
  ((between 224 224 b0 && between 160 191 b1)
   || ((between 225 236 b0 || between 238 239 b0) && cont b1)
   || (between 237 237 b0 && between 128 159 b1)) && cont b2.
Definition utf8_4 (b0 b1 b2 b3 : ascii) : bool :=
  ((between 240 240 b0 && between 144 191 b1)
   || (between 241 243 b0 && cont b1)
   || (between 244 244 b0 && between 128 143 b1)) && cont b2 && cont b3.

(** U+2028 and U+2029 are E2 80 A8 and E2 80 A9. *)
Definition line_separator (b0 b1 b2 : ascii) : bool :=
  between 226 226 b0 && between 128 128 b1 && between 168 169 b2.

(** The inside of a JSON string literal: ASCII escapes, well-formed
    UTF-8 copied (the two separators apart), and [\ufffd] for a byte that
    starts no well-formed sequence. *)
Fixpoint string_body (s : string) : string :=
  match s with
  | "" => ""
  | String b0 r0 =>
      if (N_of_ascii b0 <? 128)%N then escape_ascii b0 +:+ string_body r0
      else
        let invalid := "\ufffd" +:+ string_body r0 in
        match r0 with
        | "" => invalid
        | String b1 r1 =>
            if utf8_2 b0 b1 then String b0 (String b1 (string_body r1))
            else
              match r1 with
              | "" => invalid
              | String b2 r2 =>
                  if utf8_3 b0 b1 b2 then
                    if line_separator b0 b1 b2
                    then "\u202" +:+ String (hex_digit (N_of_ascii b2 mod 16)) (string_body r2)
                    else String b0 (String b1 (String b2 (string_body r2)))
                  else
                    match r2 with
                    | "" => invalid
                    | String b3 r3 =>
                        if utf8_4 b0 b1 b2 b3
                        then String b0 (String b1 (String b2 (String b3 (string_body r3))))
                        else invalid
                    end
              end
        end
  end.

Definition appendString (s : string) : string :=
  String quote_char (string_body s) +:+ String quote_char "".

(** A line break followed by [depth] copies of the indent, the prefix
    being empty: what [json.Indent] writes between elements. *)
Definition indent : string := "    ".
Fixpoint indentation (depth : nat) : string :=
  match depth with
  | O => ""
  | S d => indent +:+ indentation d
  end.
Definition nl (depth : nat) : string := newline +:+ indentation depth.

Fixpoint render (depth : nat) (v : json) : string :=
  match v with
  | JNull => "null"
  | JNumber i => Itoa i
  | JString s => appendString s
  | JArray [] => "[]"
  | JArray elems =>
      "[" +:+ nl (S depth)
          +:+ Join (map (render (S depth)) elems) ("," +:+ nl (S depth))
          +:+ nl depth +:+ "]"
  | JObject [] => "{}"
  | JObject members =>
      "{" +:+ nl (S depth)
          +:+ Join (map (fun kv => match kv with
                                   | (k, x) => appendString k +:+ ": " +:+ render (S depth) x
                                   end) members)
                   ("," +:+ nl (S depth))
          +:+ nl depth +:+ "}"
  end.

(** How [json.Marshal] reads the two reference types: nil is [null], a
    slice is an array, a map is an object with its keys in byte order. *)
Definition marshal_strslice (s : strslice) : json :=
  match s with
  | None => JNull
  | Some l => JArray (map JString l)
  end.

Definition key_le (a b : string * string) : Prop := Is_true (String.leb a.1 b.1).
#[global] Instance key_le_dec : RelDecision key_le := fun a b => Is_true_dec _.

Definition sorted_entries (t : gmap string string) : list (string * string) :=
  merge_sort key_le (map_to_list t).

Definition marshal_strmap (m : strmap) : json :=
  match m with
  | None => JNull
  | Some t => JObject (map (fun kv => (kv.1, JString kv.2)) (sorted_entries t))
  end.

(** [json.MarshalIndent(v, "", "    ")], [v] already read as a JSON value.
    Encoding strings, integers, slices and maps of strings cannot fail. *)
Definition MarshalIndent (v : json) : string * option error := (render 0 v, None).

End Go.

(** ** The provider SDK and the adapter of [proctor/aws/ec2.go] *)

(** The adapter and the orchestrator talk to collaborators whose state is
    not theirs; an operation on a collaborator is a function from the
    provider state [W] to a result and the next state. *)
Definition op (W A : Type) : Type := W -> A * W.

Module ec2.

(** The structs of the SDK; every field is a pointer and may be nil. *)
Module CreateKeyPairInput.
Record t : Type := { KeyName : option string }.
End CreateKeyPairInput.

Module CreateKeyPairOutput.
Record t : Type :=
  { KeyFingerprint : option string;
    KeyMaterial : option string;
    KeyName : option string }.
End CreateKeyPairOutput.

Module DeleteKeyPairInput.
Record t : Type := { KeyName : option string }.
End DeleteKeyPairInput.

(** The part of the EC2 service the adapter calls. The SDK hands back a
    non-nil output struct with every call. *)
Record API (W : Type) : Type :=
  { CreateKeyPair : CreateKeyPairInput.t -> op W (CreateKeyPairOutput.t * option Go.error);
    DeleteKeyPair : DeleteKeyPairInput.t -> op W (unit * option Go.error) }.
Arguments CreateKeyPair {W} _ _ _.
Arguments DeleteKeyPair {W} _ _ _.

End ec2.

Module aws.

Record Client (W : Type) : Type := { EC2 : ec2.API W }.
Arguments EC2 {W} _.

(** [aws.String] *)
Definition String (s : string) : option string := Some s.

Definition key_mismatch (name got : string) : Go.error :=
  "tried to create key named '" +:+ name
    +:+ "' but generated key was called '" +:+ got +:+ "'".

Definition CreateKey {W} (c : Client W) (name : string) : op W (string * option Go.error) :=
  fun w =>
    let '((out, err), w) :=
      ec2.CreateKeyPair (EC2 c) {| ec2.CreateKeyPairInput.KeyName := String name |} w in
    match err with
    | Some e => (("", Some e), w)
    | None =>
        match ec2.CreateKeyPairOutput.KeyName out with
        | None => (("", Some "CreateKeyPair returned invalid data"), w)
        | Some got =>
            if negb (bool_decide (got = name))
            then (("", Some (key_mismatch name got)), w)
            else
              match ec2.CreateKeyPairOutput.KeyMaterial out with
              | None => (("", Some "CreateKeyPair returned an empty key"), w)
              | Some material =>
                  if bool_decide (material = "")
                  then (("", Some "CreateKeyPair returned an empty key"), w)
                  else ((material, None), w)
              end
        end
    end.

Definition DeleteKey {W} (c : Client W) (name : string) : op W (option Go.error) :=
  fun w =>
    let '((_, err), w) :=
      ec2.DeleteKeyPair (EC2 c) {| ec2.DeleteKeyPairInput.KeyName := String name |} w in
    (err, w).

End aws.

(** ** The controller *)

Module controller.

(** *** The collaborators *)

(** Everything the controller does to a collaborator, in the order it
    does it. [URLForObject] builds a URL without a provider call and is
    recorded as the interface call it is. *)
Inductive Event : Type :=
| EvPrintln (indentation : Z) (format : string) (args : list string)
| EvGetLatestAMIs (boxName : string)
| EvCreateKey (name : string)
| EvDeleteKey (name : string)
| EvListKeys (prefix : string)
| EvStoreObject (name bytes downloadFileName contentType : string)
| EvDeleteObject (name : string)
| EvURLForObject (name : string)
| EvCreateStack (name template : string) (parameters : Go.strmap)
| EvDeleteStack (name : string)
| EvDescribeStack (name : string)
| EvGetHostsFromStackID (stackID : string).

Record atlasClient (W : Type) : Type :=
  { GetLatestAMIs : string -> op W (Go.strmap * option Go.error) }.
Arguments GetLatestAMIs {W} _ _ _.

Record awsClient (W : Type) : Type :=
  { CreateKey : string -> op W (string * option Go.error);
    DeleteKey : string -> op W (option Go.error);
    ListKeys : string -> op W (Go.strslice * option Go.error);
    StoreObject : string -> string -> string -> string -> op W (option Go.error);
    DeleteObject : string -> op W (option Go.error);
    URLForObject : string -> string;
    CreateStack : string -> string -> Go.strmap -> op W (string * option Go.error);
    DeleteStack : string -> op W (option Go.error);
    DescribeStack : string -> op W (string * string * Go.strmap * option Go.error);
    GetHostsFromStackID : string -> op W (Go.strmap * option Go.error) }.
Arguments CreateKey {W} _ _ _.
Arguments DeleteKey {W} _ _ _.
Arguments ListKeys {W} _ _ _.
Arguments StoreObject {W} _ _ _ _ _ _.
Arguments DeleteObject {W} _ _ _.
Arguments URLForObject {W} _ _.
Arguments CreateStack {W} _ _ _ _ _.
Arguments DeleteStack {W} _ _ _.
Arguments DescribeStack {W} _ _ _.
Arguments GetHostsFromStackID {W} _ _ _.

(** [Green] colours its formatted argument and returns it; what [Println]
    prints is the [EvPrintln] event. *)
Record cliLogger : Type :=
  { Green : string -> list string -> string }.

Record Controller (W : Type) : Type :=
  { AtlasClient : atlasClient W;
    AWSClient : awsClient W;
    Log : cliLogger;
    VagrantBoxName : string;
    Region : string;
    Template : string }.
Arguments AtlasClient {W} _.
Arguments AWSClient {W} _.
Arguments Log {W} _.
Arguments VagrantBoxName {W} _.
Arguments Region {W} _.
Arguments Template {W} _.

(** *** Running a workflow *)

Record State (W : Type) : Type := { world : W; trace : list Event }.
Arguments world {W} _.
Arguments trace {W} _.

Definition M (W A : Type) : Type := State W -> A * State W.

#[global] Instance M_ret {W} : MRet (M W) := fun A a st => (a, st).
#[global] Instance M_bind {W} : MBind (M W) :=
  fun A B f m st => let '(a, st') := m st in f a st'.

(** One call through an interface: the event is recorded, then the
    collaborator runs. *)
Definition call {W A} (ev : Event) (f : op W A) : M W A :=
  fun st =>
    let '(a, w) := f (world st) in
    (a, {| world := w; trace := trace st ++ [ev] |}).

Definition Println {W} (indentation : Z) (format : string) (args : list string) : M W unit :=
  call (EvPrintln indentation format args) (fun w => (tt, w)).

(** A method of the client that reads no provider state. *)
Definition pure_call {W A} (ev : Event) (a : A) : M W A :=
  call ev (fun w => (a, w)).

(** The events a run adds, the console lines left out. *)
Definition is_adapter_call (ev : Event) : bool :=
  match ev with
  | EvPrintln _ _ _ => false
  | _ => true
  end.

Definition adapter_calls (tr : list Event) : list Event := filter is_adapter_call tr.

(** *** The workflows *)

Definition prefix (classroomName : string) : string := "classroom-" +:+ classroomName.

Section workflows.
Context {W : Type}.

Definition CreateClassroom (c : Controller W) (name : string) (number : Z)
  : M W (option Go.error) :=
  if negb (Go.MatchString name)
  then mret (Some ("invalid name: must match pattern " +:+ Go.requiredPattern))
  else
    Println 0 "Looking up latest AMI for %s" [Green (Log c) "%s" [VagrantBoxName c]];;
    '(amiMap, err) ← call (EvGetLatestAMIs (VagrantBoxName c))
                          (GetLatestAMIs (AtlasClient c) (VagrantBoxName c));
    match err with
    | Some e => mret (Some e)
    | None =>
        let '(ami, ok) := Go.index2 amiMap (Region c) in
        if negb ok
        then mret (Some ("Couldn't find AMI in region " +:+ Region c))
        else
          Println 0 "Found %s" [Green (Log c) "%s" [ami]];;
          let prefixedName := prefix name in
          Println 0 "Creating SSH Keypair %s" [Green (Log c) "%s" [prefixedName]];;
          '(privateKeyPEMBytes, err) ← call (EvCreateKey prefixedName)
                                            (CreateKey (AWSClient c) prefixedName);
          match err with
          | Some e => mret (Some e)
          | None =>
              let s3Name := "keys/" +:+ prefixedName in
              s3URL ← pure_call (EvURLForObject s3Name) (URLForObject (AWSClient c) s3Name);
              Println 0 "Uploading private key to %s" [Green (Log c) "%s" [s3URL]];;
              err ← call (EvStoreObject s3Name privateKeyPEMBytes
                                        "bosh101_ssh_key.pem" "application/x-pem-file")
                         (StoreObject (AWSClient c) s3Name privateKeyPEMBytes
                                      "bosh101_ssh_key.pem" "application/x-pem-file");
              match err with
              | Some e => mret (Some e)
              | None =>
                  Println 0 "Creating CloudFormation stack %s"
                          [Green (Log c) "%s" [prefixedName]];;
                  let parameters : Go.strmap :=
                    Some (<["AMI" := ami]>
                          (<["KeyName" := prefixedName]>
                           (<["InstanceCount" := Go.Itoa number]> ∅))) in
                  '(_, err) ← call (EvCreateStack prefixedName (Template c) parameters)
                                   (CreateStack (AWSClient c) prefixedName (Template c)
                                                parameters);
                  mret err
              end
          end
    end.

Definition DestroyClassroom (c : Controller W) (name : string) : M W (option Go.error) :=
  let prefixedName := prefix name in
  Println 0 "Deleting CloudFormation stack %s" [Green (Log c) "%s" [prefixedName]];;
  err ← call (EvDeleteStack prefixedName) (DeleteStack (AWSClient c) prefixedName);
  match err with
  | Some e => mret (Some e)
  | None =>
      Println 0 "Deleting classroom keypair..." [];;
      err ← call (EvDeleteKey prefixedName) (DeleteKey (AWSClient c) prefixedName);
      match err with
      | Some e => mret (Some e)
      | None =>
          let s3Name := "keys/" +:+ prefixedName in
          Println 0 "Deleting private key from S3..." [];;
          err ← call (EvDeleteObject s3Name) (DeleteObject (AWSClient c) s3Name);
          mret err
      end
  end.

Definition format_error : Go.error := "expected format to be either 'json' or 'plain'".

Definition ListClassrooms (c : Controller W) (format : string)
  : M W (string * option Go.error) :=
  '(keys, err) ← call (EvListKeys "classroom-") (ListKeys (AWSClient c) "classroom-");
  match err with
  | Some e => mret ("", Some e)
  | None =>
      let keys : Go.strslice := map (fun k => Go.TrimPrefix k "classroom-") <$> keys in
      if bool_decide (format = "json")
      then mret (Go.MarshalIndent (Go.marshal_strslice keys))
      else if bool_decide (format = "plain")
      then mret (Go.Join (Go.elements keys) Go.newline, None)
      else mret ("", Some format_error)
  end.

(** The anonymous struct of [DescribeClassroom], with its JSON tags. *)
Record description : Type :=
  { Status : string;
    Number : Z;
    SSHKey : string;
    Hosts : Go.strmap }.

Definition marshal_description (d : description) : Go.json :=
  Go.JObject [("status", Go.JString (Status d));
              ("number", Go.JNumber (Number d));
              ("ssh_key", Go.JString (SSHKey d));
              ("hosts", Go.marshal_strmap (Hosts d))].

(** [for k, v := range m] visits the entries of a map in an order the
    runtime picks; [range] stands for that choice. *)
Variable range : gmap string string -> list (string * string).

Definition range_strmap (m : Go.strmap) : list (string * string) :=
  match m with
  | Some t => range t
  | None => []
  end.

Definition malformed_stack : Go.error :=
  "malformed CloudFormation stack: missing or invalid parameter 'InstanceCount'".

Definition DescribeClassroom (c : Controller W) (name format : string)
  : M W (string * option Go.error) :=
  let prefixedName := prefix name in
  '(status, stackID, parameters, err) ← call (EvDescribeStack prefixedName)
                                             (DescribeStack (AWSClient c) prefixedName);
  match err with
  | Some e => mret ("", Some e)
  | None =>
      keyURL ← pure_call (EvURLForObject ("keys/" +:+ prefixedName))
                         (URLForObject (AWSClient c) ("keys/" +:+ prefixedName));
      let '(number, err) := Go.Atoi (Go.index parameters "InstanceCount") in
      match err with
      | Some _ => mret ("", Some malformed_stack)
      | None =>
          '(hosts, err) ← call (EvGetHostsFromStackID stackID)
                               (GetHostsFromStackID (AWSClient c) stackID);
          match err with
          | Some e => mret ("", Some ("error fetching hosts for stack: " +:+ e))
          | None =>
              let d := {| Status := status; Number := number;
                          SSHKey := keyURL; Hosts := hosts |} in
              if bool_decide (format = "json")
              then mret (Go.MarshalIndent (marshal_description d))
              else if bool_decide (format = "plain")
              then
                let hosts := map (fun kv => kv.1 +:+ Go.tab +:+ kv.2)
                                 (range_strmap (Hosts d)) in
                mret ("status" +:+ ": " +:+ Status d +:+ Go.newline
                      +:+ "number" +:+ ": " +:+ Go.Itoa (Number d) +:+ Go.newline
                      +:+ "ssh_key" +:+ ": " +:+ SSHKey d +:+ Go.newline
                      +:+ "hosts" +:+ ":" +:+ Go.newline
                      +:+ Go.Join hosts Go.newline, None)
              else mret ("", Some format_error)
          end
      end
  end.

End workflows.

End controller.

(** ** Call-counting fakes

    Scripted collaborators: every operation answers with the response it
    was given and counts the call in the provider state. *)

Module fake.
Import controller.

Definition count {A} (a : A) : op nat A := fun n => (a, S n).

Record responses : Type :=
  { latest_amis : Go.strmap * option Go.error;
    create_key : string * option Go.error;
    delete_key : option Go.error;
    list_keys : Go.strslice * option Go.error;
    store_object : option Go.error;
    delete_object : option Go.error;
    create_stack : string * option Go.error;
    delete_stack : option Go.error;
    describe_stack : string * string * Go.strmap * option Go.error;
    hosts_from_stack : Go.strmap * option Go.error }.

Definition atlas (r : responses) : atlasClient nat :=
  {| GetLatestAMIs := fun _ => count (latest_amis r) |}.

Definition url (name : string) : string := "https://s3.example/" +:+ name.

Definition client (r : responses) : awsClient nat :=
  {| CreateKey := fun _ => count (create_key r);
     DeleteKey := fun _ => count (delete_key r);
     ListKeys := fun _ => count (list_keys r);
     StoreObject := fun _ _ _ _ => count (store_object r);
     DeleteObject := fun _ => count (delete_object r);
     URLForObject := url;
     CreateStack := fun _ _ _ => count (create_stack r);
     DeleteStack := fun _ => count (delete_stack r);
     DescribeStack := fun _ => count (describe_stack r);
     GetHostsFromStackID := fun _ => count (hosts_from_stack r) |}.

Definition logger : cliLogger := {| Green := fun _ args => Go.Join args "" |}.

Definition controller (r : responses) : Controller nat :=
  {| AtlasClient := atlas r;
     AWSClient := client r;
     Log := logger;
     VagrantBoxName := "bosh-lite";
     Region := "us-west-2";
     Template := "{}" |}.

(** Every operation succeeds. *)
Definition all_ok : responses :=
  {| latest_amis := (Some {[ "us-west-2" := "ami-1234" ]}, None);
     create_key := ("PEM", None);
     delete_key := None;
     list_keys := (Some ["classroom-a"; "classroom-b"], None);
     store_object := None;
     delete_object := None;
     create_stack := ("stack-id", None);
     delete_stack := None;
     describe_stack :=
       ("CREATE_COMPLETE", "stack-id", Some {[ "InstanceCount" := "3" ]}, None);
     hosts_from_stack := (Some {[ "vm-0" := "10.0.0.1" ]}, None) |}.

(** [ListKeys] answers with a nil slice and no error. *)
Definition no_keys : responses :=
  {| latest_amis := latest_amis all_ok;
     create_key := create_key all_ok;
     delete_key := delete_key all_ok;
     list_keys := (None, None);
     store_object := store_object all_ok;
     delete_object := delete_object all_ok;
     create_stack := create_stack all_ok;
     delete_stack := delete_stack all_ok;
     describe_stack := describe_stack all_ok;
     hosts_from_stack := hosts_from_stack all_ok |}.

(** The stack carries the given parameters. *)
Definition with_parameters (parameters : Go.strmap) : responses :=
  {| latest_amis := latest_amis all_ok;
     create_key := create_key all_ok;
     delete_key := delete_key all_ok;
     list_keys := list_keys all_ok;
     store_object := store_object all_ok;
     delete_object := delete_object all_ok;
     create_stack := create_stack all_ok;
     delete_stack := delete_stack all_ok;
     describe_stack := ("CREATE_COMPLETE", "stack-id", parameters, None);
     hosts_from_stack := hosts_from_stack all_ok |}.

(** The image lookup answers with the given mapping. *)
Definition with_amis (amis : Go.strmap) : responses :=
  {| latest_amis := (amis, None);
     create_key := create_key all_ok;
     delete_key := delete_key all_ok;
     list_keys := list_keys all_ok;
     store_object := store_object all_ok;
     delete_object := delete_object all_ok;
     create_stack := create_stack all_ok;
     delete_stack := delete_stack all_ok;
     describe_stack := describe_stack all_ok;
     hosts_from_stack := hosts_from_stack all_ok |}.

(** The three deletions answer with the given errors. *)
Definition with_deletions (stack key object : option Go.error) : responses :=
  {| latest_amis := latest_amis all_ok;
     create_key := create_key all_ok;
     delete_key := key;
     list_keys := list_keys all_ok;
     store_object := store_object all_ok;
     delete_object := object;
     create_stack := create_stack all_ok;
     delete_stack := stack;
     describe_stack := describe_stack all_ok;
     hosts_from_stack := hosts_from_stack all_ok |}.

Definition start : State nat := {| world := 0%nat; trace := [] |}.

(** An EC2 service that answers [CreateKeyPair] with a fixed output. *)
Definition ec2_api (out : ec2.CreateKeyPairOutput.t) (err : option Go.error) : ec2.API nat :=
  {| ec2.CreateKeyPair := fun _ => count (out, err);
     ec2.DeleteKeyPair := fun _ => count (tt, None) |}.

Definition key_pair (name material : option string) : ec2.CreateKeyPairOutput.t :=
  {| ec2.CreateKeyPairOutput.KeyFingerprint := Some "1f:51";
     ec2.CreateKeyPairOutput.KeyMaterial := material;
     ec2.CreateKeyPairOutput.KeyName := name |}.

(** The fake client with its key operations replaced by the adapter of
    [proctor/aws] over an EC2 service. *)
Definition client_over (api : ec2.API nat) (r : responses) : awsClient nat :=
  {| CreateKey := aws.CreateKey {| aws.EC2 := api |};
     DeleteKey := aws.DeleteKey {| aws.EC2 := api |};
     ListKeys := ListKeys (client r);
     StoreObject := StoreObject (client r);
     DeleteObject := DeleteObject (client r);
     URLForObject := URLForObject (client r);
     CreateStack := CreateStack (client r);
     DeleteStack := DeleteStack (client r);
     DescribeStack := DescribeStack (client r);
     GetHostsFromStackID := GetHostsFromStackID (client r) |}.

Definition controller_over (api : ec2.API nat) (r : responses) : Controller nat :=
  {| AtlasClient := atlas r;
     AWSClient := client_over api r;
     Log := logger;
     VagrantBoxName := "bosh-lite";
     Region := "us-west-2";
     Template := "{}" |}.

End fake.

(** ** Vocabulary of the statements *)

Import controller.

(** The entries of a map of strings, in no particular order. *)
Definition entries (m : Go.strmap) : list (string * string) :=
  match m with
  | Some t => map_to_list t
  | None => []
  end.

(** [addresses name ev]: where the event [ev] names a key pair, a stack
    or a stored key object, the name is the one derived from the
    environment [name]. The image lookup, the listing of keys, the host
    lookup (by the provider's stack id) and console lines name no such
    resource. *)
Definition addresses (name : string) (ev : Event) : Prop :=
  let prefixedName := "classroom-" +:+ name in
  match ev with
  | EvCreateKey n | EvDeleteKey n | EvDeleteStack n | EvDescribeStack n =>
      n = prefixedName
  | EvCreateStack n _ parameters =>
      n = prefixedName /\ Go.index2 parameters "KeyName" = (prefixedName, true)
  | EvStoreObject n _ _ _ | EvDeleteObject n | EvURLForObject n =>
      n = "keys/" +:+ prefixedName
  | EvPrintln _ _ _ | EvGetLatestAMIs _ | EvListKeys _ | EvGetHostsFromStackID _ =>
      True
  end.

(** The stack parameters [CreateClassroom] builds. *)
Definition stack_parameters (ami keyName : string) (number : Z) : Go.strmap :=
  Some (<["AMI" := ami]>
        (<["KeyName" := keyName]>
         (<["InstanceCount" := Go.Itoa number]> ∅))).

(** The number a decimal numeral of the standard library stands for,
    read most significant digit first as [Go.digits_value] reads. *)
Fixpoint uint_value (acc : Z) (u : Decimal.uint) : Z :=
  match u with
  | Decimal.Nil => acc
  | Decimal.D0 u => uint_value (10 * acc + 0) u
  | Decimal.D1 u => uint_value (10 * acc + 1) u
  | Decimal.D2 u => uint_value (10 * acc + 2) u
  | Decimal.D3 u => uint_value (10 * acc + 3) u
  | Decimal.D4 u => uint_value (10 * acc + 4) u
  | Decimal.D5 u => uint_value (10 * acc + 5) u
  | Decimal.D6 u => uint_value (10 * acc + 6) u
  | Decimal.D7 u => uint_value (10 * acc + 7) u
  | Decimal.D8 u => uint_value (10 * acc + 8) u
  | Decimal.D9 u => uint_value (10 * acc + 9) u
  end.

(** A text between double quotes, for writing expected JSON down. *)
Definition dq (s : string) : string :=
  String Go.quote_char s +:+ String Go.quote_char "".

(** One line of the plain-text host list. *)
Definition host_line (kv : string * string) : string := kv.1 +:+ Go.tab +:+ kv.2.

(** Unfolds one workflow down to the calls it makes. *)
Ltac run_workflow :=
  unfold CreateClassroom, DestroyClassroom, ListClassrooms, DescribeClassroom,
    Println, pure_call, call, mbind, M_bind, mret, M_ret, prefix; simpl.

(** Brings a trace built by successive calls to the form [tr ++ new]. *)
Ltac trace_appended :=
  eexists; split; [ rewrite <- ?app_assoc; simpl; reflexivity | ].

(** ** Vocabulary of the further properties *)

(** The events a run adds to the trace it starts from. *)
Definition new_events {W A} (m : M W A) (st : State W) : list Event :=
  drop (length (trace st)) (trace (m st).2).

(** The interface method behind an event. *)
Definition operation (ev : Event) : string :=
  match ev with
  | EvPrintln _ _ _ => "Println"
  | EvGetLatestAMIs _ => "GetLatestAMIs"
  | EvCreateKey _ => "CreateKey"
  | EvDeleteKey _ => "DeleteKey"
  | EvListKeys _ => "ListKeys"
  | EvStoreObject _ _ _ _ => "StoreObject"
  | EvDeleteObject _ => "DeleteObject"
  | EvURLForObject _ => "URLForObject"
  | EvCreateStack _ _ _ => "CreateStack"
  | EvDeleteStack _ => "DeleteStack"
  | EvDescribeStack _ => "DescribeStack"
  | EvGetHostsFromStackID _ => "GetHostsFromStackID"
  end.

(** The adapter methods a run has called, in the order of the calls. *)
Definition operations {W A} (m : M W A) (st : State W) : list string :=
  map operation (adapter_calls (new_events m st)).

(** The order in which each workflow is written to call the adapter. *)
Definition create_sequence : list string :=
  ["GetLatestAMIs"; "CreateKey"; "URLForObject"; "StoreObject"; "CreateStack"].
Definition destroy_sequence : list string :=
  ["DeleteStack"; "DeleteKey"; "DeleteObject"].
Definition describe_sequence : list string :=
  ["DescribeStack"; "URLForObject"; "GetHostsFromStackID"].

(** The provider resources of a classroom, and the events that make and
    remove them. *)
Inductive resource : Type :=
| KeyPair (name : string)
| StoredObject (name : string)
| Stack (name : string).

Definition created (ev : Event) : option resource :=
  match ev with
  | EvCreateKey n => Some (KeyPair n)
  | EvStoreObject n _ _ _ => Some (StoredObject n)
  | EvCreateStack n _ _ => Some (Stack n)
  | _ => None
  end.

Definition deleted (ev : Event) : option resource :=
  match ev with
  | EvDeleteKey n => Some (KeyPair n)
  | EvDeleteObject n => Some (StoredObject n)
  | EvDeleteStack n => Some (Stack n)
  | _ => None
  end.

(** [announced false tr]: every call in [tr] that reaches the provider
    comes right after a console line. [URLForObject] reaches no provider
    and needs no line. *)
Fixpoint announced (printed : bool) (tr : list Event) : bool :=
  match tr with
  | [] => true
  | EvPrintln _ _ _ :: rest => announced true rest
  | EvURLForObject _ :: rest => announced printed rest
  | _ :: rest => printed && announced false rest
  end.

Definition is_println (ev : Event) : bool := negb (is_adapter_call ev).

(** Further scripted collaborators: one answer of [fake.all_ok] replaced. *)
Module scenario.

Definition lookup_fails : fake.responses :=
  {| fake.latest_amis := (Some {[ "us-west-2" := "ami-1234" ]}, Some "atlas unreachable");
     fake.create_key := fake.create_key fake.all_ok;
     fake.delete_key := fake.delete_key fake.all_ok;
     fake.list_keys := fake.list_keys fake.all_ok;
     fake.store_object := fake.store_object fake.all_ok;
     fake.delete_object := fake.delete_object fake.all_ok;
     fake.create_stack := fake.create_stack fake.all_ok;
     fake.delete_stack := fake.delete_stack fake.all_ok;
     fake.describe_stack := fake.describe_stack fake.all_ok;
     fake.hosts_from_stack := fake.hosts_from_stack fake.all_ok |}.

Definition upload_fails : fake.responses :=
  {| fake.latest_amis := fake.latest_amis fake.all_ok;
     fake.create_key := fake.create_key fake.all_ok;
     fake.delete_key := fake.delete_key fake.all_ok;
     fake.list_keys := fake.list_keys fake.all_ok;
     fake.store_object := Some "access denied";
     fake.delete_object := fake.delete_object fake.all_ok;
     fake.create_stack := fake.create_stack fake.all_ok;
     fake.delete_stack := fake.delete_stack fake.all_ok;
     fake.describe_stack := fake.describe_stack fake.all_ok;
     fake.hosts_from_stack := fake.hosts_from_stack fake.all_ok |}.

Definition listing (keys : Go.strslice) (err : option Go.error) : fake.responses :=
  {| fake.latest_amis := fake.latest_amis fake.all_ok;
     fake.create_key := fake.create_key fake.all_ok;
     fake.delete_key := fake.delete_key fake.all_ok;
     fake.list_keys := (keys, err);
     fake.store_object := fake.store_object fake.all_ok;
     fake.delete_object := fake.delete_object fake.all_ok;
     fake.create_stack := fake.create_stack fake.all_ok;
     fake.delete_stack := fake.delete_stack fake.all_ok;
     fake.describe_stack := fake.describe_stack fake.all_ok;
     fake.hosts_from_stack := fake.hosts_from_stack fake.all_ok |}.

Definition describing (parameters : Go.strmap) (err : option Go.error)
  (hosts : Go.strmap * option Go.error) : fake.responses :=
  {| fake.latest_amis := fake.latest_amis fake.all_ok;
     fake.create_key := fake.create_key fake.all_ok;
     fake.delete_key := fake.delete_key fake.all_ok;
     fake.list_keys := fake.list_keys fake.all_ok;
     fake.store_object := fake.store_object fake.all_ok;
     fake.delete_object := fake.delete_object fake.all_ok;
     fake.create_stack := fake.create_stack fake.all_ok;
     fake.delete_stack := fake.delete_stack fake.all_ok;
     fake.describe_stack := ("CREATE_COMPLETE", "stack-id", parameters, err);
     fake.hosts_from_stack := hosts |}.

(** An EC2 service that answers [DeleteKeyPair] with a fixed error. *)
Definition ec2_deleting (err : option Go.error) : ec2.API nat :=
  {| ec2.CreateKeyPair :=
       fun _ => fake.count (fake.key_pair (Some "classroom-demo") (Some "PEM"), None);
     ec2.DeleteKeyPair := fun _ => fake.count (tt, err) |}.

(** An iteration order other than that of [map_to_list]. *)
Definition backwards (t : gmap string string) : list (string * string) :=
  reverse (map_to_list t).

End scenario.

(** ** Properties of the workflows *)

(** *** The library functions on the inputs of the specification *)

Example TrimPrefix_classroom : Go.TrimPrefix "classroom-a" "classroom-" = "a".
Proof. reflexivity. Qed.

Example TrimPrefix_without_prefix : Go.TrimPrefix "class" "classroom-" = "class".
Proof. reflexivity. Qed.

Example Itoa_zero : Go.Itoa 0 = "0".
Proof. reflexivity. Qed.

Example Itoa_negative : Go.Itoa (-12) = "-12".
Proof. reflexivity. Qed.

Example Atoi_3 : Go.Atoi "3" = (3, None).
Proof. reflexivity. Qed.

Example Atoi_signed : Go.Atoi "-40" = (-40, None) /\ Go.Atoi "+7" = (7, None).
Proof. split; reflexivity. Qed.

Example Atoi_abc : Go.failed (Go.Atoi "abc") = true.
Proof. reflexivity. Qed.

Example Atoi_trailing_space : Go.failed (Go.Atoi "3 ") = true.
Proof. reflexivity. Qed.

Example Atoi_out_of_range :
  Go.Atoi "9223372036854775807" = (9223372036854775807, None)
  /\ Go.failed (Go.Atoi "9223372036854775808") = true.
Proof. split; reflexivity. Qed.

Example MatchString_accepts : Go.MatchString "bosh-101" = true.
Proof. reflexivity. Qed.

Example MatchString_rejects :
  Go.MatchString "1bad" = false
  /\ Go.MatchString "bad name" = false
  /\ Go.MatchString "" = false
  /\ Go.MatchString "-x" = false
  /\ Go.MatchString ("ok" +:+ Go.newline) = false.
Proof. repeat split; reflexivity. Qed.

Example appendString_escapes :
  Go.appendString "a<b" = dq "a\u003cb"
  /\ Go.appendString ("x" +:+ Go.tab +:+ "y") = dq "x\ty".
Proof. split; reflexivity. Qed.

Example MarshalIndent_names :
  Go.MarshalIndent (Go.marshal_strslice (Some ["a"; "b"]))
  = ("[" +:+ Go.newline
     +:+ "    " +:+ dq "a" +:+ "," +:+ Go.newline
     +:+ "    " +:+ dq "b" +:+ Go.newline
     +:+ "]", None).
Proof. reflexivity. Qed.

Example MarshalIndent_empty_and_nil :
  Go.MarshalIndent (Go.marshal_strslice (Some [])) = ("[]", None)
  /\ Go.MarshalIndent (Go.marshal_strslice None) = ("null", None)
  /\ Go.MarshalIndent (Go.marshal_strmap (Some ∅)) = ("{}", None)
  /\ Go.MarshalIndent (Go.marshal_strmap None) = ("null", None).
Proof. repeat split; reflexivity. Qed.

Example sorted_entries_byte_order :
  Go.sorted_entries {[ "b" := "1"; "B" := "2"; "ab" := "3"; "a" := "4" ]}
  = [("B", "2"); ("a", "4"); ("ab", "3"); ("b", "1")].
Proof. vm_compute. reflexivity. Qed.

(** *** The workflows on the inputs of the specification *)

Example ListClassrooms_json :
  ListClassrooms (fake.controller fake.all_ok) "json" fake.start
  = (("[" +:+ Go.newline
      +:+ "    " +:+ dq "a" +:+ "," +:+ Go.newline
      +:+ "    " +:+ dq "b" +:+ Go.newline
      +:+ "]", None),
     {| world := 1%nat; trace := [EvListKeys "classroom-"] |}).
Proof. reflexivity. Qed.

Example ListClassrooms_xml :
  ListClassrooms (fake.controller fake.all_ok) "xml" fake.start
  = (("", Some "expected format to be either 'json' or 'plain'"),
     {| world := 1%nat; trace := [EvListKeys "classroom-"] |}).
Proof. reflexivity. Qed.

Example DescribeClassroom_json :
  (DescribeClassroom map_to_list (fake.controller fake.all_ok) "demo" "json"
                     fake.start).1
  = ("{" +:+ Go.newline
     +:+ "    " +:+ dq "status" +:+ ": " +:+ dq "CREATE_COMPLETE" +:+ "," +:+ Go.newline
     +:+ "    " +:+ dq "number" +:+ ": 3," +:+ Go.newline
     +:+ "    " +:+ dq "ssh_key" +:+ ": "
               +:+ dq "https://s3.example/keys/classroom-demo" +:+ "," +:+ Go.newline
     +:+ "    " +:+ dq "hosts" +:+ ": {" +:+ Go.newline
     +:+ "        " +:+ dq "vm-0" +:+ ": " +:+ dq "10.0.0.1" +:+ Go.newline
     +:+ "    }" +:+ Go.newline
     +:+ "}", None).
Proof. vm_compute. reflexivity. Qed.

Example DescribeClassroom_plain :
  (DescribeClassroom map_to_list (fake.controller fake.all_ok) "demo" "plain"
                     fake.start).1
  = ("status: CREATE_COMPLETE" +:+ Go.newline
     +:+ "number: 3" +:+ Go.newline
     +:+ "ssh_key: https://s3.example/keys/classroom-demo" +:+ Go.newline
     +:+ "hosts:" +:+ Go.newline
     +:+ "vm-0" +:+ Go.tab +:+ "10.0.0.1", None).
Proof. vm_compute. reflexivity. Qed.

Example DescribeClassroom_missing_count :
  (DescribeClassroom map_to_list (fake.controller (fake.with_parameters (Some ∅)))
                     "demo" "json" fake.start).1
  = ("", Some "malformed CloudFormation stack: missing or invalid parameter 'InstanceCount'").
Proof. vm_compute. reflexivity. Qed.

Example CreateClassroom_all_ok :
  adapter_calls (trace (CreateClassroom (fake.controller fake.all_ok) "demo" 3
                                        fake.start).2)
  = [EvGetLatestAMIs "bosh-lite";
     EvCreateKey "classroom-demo";
     EvURLForObject "keys/classroom-demo";
     EvStoreObject "keys/classroom-demo" "PEM" "bosh101_ssh_key.pem"
                   "application/x-pem-file";
     EvCreateStack "classroom-demo" "{}"
                   (stack_parameters "ami-1234" "classroom-demo" 3)].
Proof. vm_compute. reflexivity. Qed.

(** *** Reading maps *)

Lemma index2_present (t : gmap string string) (k v : string) :
  t !! k = Some v -> Go.index2 (Some t) k = (v, true).
Proof. intros H. unfold Go.index2. rewrite H. reflexivity. Qed.

Lemma index2_absent (m : Go.strmap) (k : string) :
  (forall t, m = Some t -> t !! k = None) -> Go.index2 m k = ("", false).
Proof.
  intros H. destruct m as [t|]; [ | reflexivity ].
  unfold Go.index2. rewrite (H t eq_refl). reflexivity.
Qed.

Lemma index_absent (m : Go.strmap) (k : string) :
  (forall t, m = Some t -> t !! k = None) -> Go.index m k = "".
Proof. intros H. unfold Go.index. rewrite (index2_absent m k H). reflexivity. Qed.

Lemma Atoi_empty : Go.failed (Go.Atoi "") = true.
Proof. reflexivity. Qed.

Lemma stack_parameters_InstanceCount (ami keyName : string) (number : Z) :
  Go.index2 (stack_parameters ami keyName number) "InstanceCount"
  = (Go.Itoa number, true).
Proof.
  apply index2_present. unfold stack_parameters.
  rewrite lookup_insert_ne by discriminate.
  rewrite lookup_insert_ne by discriminate.
  apply lookup_insert_eq.
Qed.

Lemma stack_parameters_KeyName (ami keyName : string) (number : Z) :
  Go.index2 (stack_parameters ami keyName number) "KeyName" = (keyName, true).
Proof.
  apply index2_present. unfold stack_parameters.
  rewrite lookup_insert_ne by discriminate.
  apply lookup_insert_eq.
Qed.

(** *** [strconv]: what is written by [Itoa] is read back by [Atoi] *)

Lemma digits_value_string_of_uint (u : Decimal.uint) (acc : Z) :
  Go.digits_value acc (NilEmpty.string_of_uint u) = Some (uint_value acc u).
Proof.
  revert acc. induction u as [|u IH|u IH|u IH|u IH|u IH|u IH|u IH|u IH|u IH|u IH];
    intros acc; [ reflexivity | .. ]; apply (IH (10 * acc + _)).
Qed.

Lemma uint_value_acc (u : Decimal.uint) (acc : positive) :
  uint_value (Z.pos acc) u = Z.pos (Pos.of_uint_acc u acc).
Proof.
  revert acc. induction u as [|u IH|u IH|u IH|u IH|u IH|u IH|u IH|u IH|u IH|u IH];
    intros acc; simpl; [ reflexivity | .. ]; rewrite <- IH; f_equal; lia.
Qed.

Lemma uint_value_of_uint (u : Decimal.uint) :
  uint_value 0 u = Z.of_N (Pos.of_uint u).
Proof.
  induction u as [|u IH|u IH|u IH|u IH|u IH|u IH|u IH|u IH|u IH|u IH];
    [ reflexivity | exact IH | .. ]; apply (uint_value_acc u).
Qed.

Lemma uint_value_to_uint (p : positive) : uint_value 0 (Pos.to_uint p) = Z.pos p.
Proof. rewrite uint_value_of_uint, Unsigned.of_to. reflexivity. Qed.

Lemma in_int_range (v : Z) :
  Go.minInt <= v <= Go.maxInt -> ((Go.minInt <=? v) && (v <=? Go.maxInt))%Z = true.
Proof. intros H. apply andb_true_intro. split; apply Z.leb_le; lia. Qed.

Lemma digit_is_no_sign (c : ascii) :
  Go.is_digit c = true ->
  bool_decide (c = "-"%char) = false /\ bool_decide (c = "+"%char) = false.
Proof.
  intros Hc. split; apply bool_decide_eq_false_2; intros ->; discriminate Hc.
Qed.

Lemma string_of_uint_to_uint (p : positive) :
  exists c s,
    NilZero.string_of_uint (Pos.to_uint p) = String c s
    /\ Go.is_digit c = true
    /\ Go.digits_value 0 (String c s) = Some (Z.pos p).
Proof.
  pose proof (Unsigned.to_uint_nonnil p) as Hnil.
  pose proof (uint_value_to_uint p) as Hval.
  pose proof (digits_value_string_of_uint (Pos.to_uint p) 0) as Hdigits.
  rewrite Hval in Hdigits.
  destruct (Pos.to_uint p) as [|u|u|u|u|u|u|u|u|u|u];
    [ contradiction Hnil; reflexivity | .. ];
    eexists _, _; (split; [ reflexivity | split; [ reflexivity | exact Hdigits ] ]).
Qed.

Lemma Atoi_Itoa (i : Z) :
  Go.minInt <= i <= Go.maxInt -> Go.Atoi (Go.Itoa i) = (i, None).
Proof.
  intros Hrange. destruct i as [|p|p].
  - reflexivity.
  - unfold Go.Itoa. simpl.
    destruct (string_of_uint_to_uint p) as (c & s & -> & Hc & Hn).
    unfold Go.Atoi. destruct (digit_is_no_sign c Hc) as [-> ->].
    cbv zeta. cbn [orb]. cbv iota. rewrite Hn.
    rewrite (in_int_range _ Hrange). reflexivity.
  - unfold Go.Itoa. simpl.
    destruct (string_of_uint_to_uint p) as (c & s & -> & Hc & Hn).
    unfold Go.Atoi. rewrite Hn. change (- Z.pos p) with (Z.neg p).
    rewrite (in_int_range _ Hrange). reflexivity.
Qed.

Lemma digits_value_all_digits (s : string) (acc n : Z) :
  Go.digits_value acc s = Some n -> Go.all_bytes Go.is_digit s = true.
Proof.
  revert acc. induction s as [|c s IH]; intros acc H; [ reflexivity | ].
  simpl in *. destruct (Go.is_digit c); [ exact (IH _ H) | discriminate H ].
Qed.

(** [Atoi] accepts nothing but an optional sign followed by at least one
    decimal digit, and only within the range of [int]. *)
Lemma Atoi_accepts_only_numerals (s : string) (v : Z) :
  Go.Atoi s = (v, None) ->
  exists sign body,
    s = sign +:+ body
    /\ (sign = "" \/ sign = "+" \/ sign = "-")
    /\ body <> ""
    /\ Go.all_bytes Go.is_digit body = true
    /\ Go.minInt <= v <= Go.maxInt.
Proof.
  unfold Go.Atoi. destruct s as [|c rest]; [ discriminate | ].
  set (signed := bool_decide (c = "-"%char) || bool_decide (c = "+"%char)).
  set (body := if signed then rest else String c rest).
  intros H.
  assert (Hbody : body <> ""
                  /\ Go.all_bytes Go.is_digit body = true
                  /\ Go.minInt <= v <= Go.maxInt).
  { destruct body as [|b body']; [ discriminate H | ].
    destruct (Go.digits_value 0 (String b body')) as [n|] eqn:Hn; [ | discriminate H ].
    destruct ((Go.minInt <=? (if bool_decide (c = "-"%char) then - n else n))
              && ((if bool_decide (c = "-"%char) then - n else n) <=? Go.maxInt))%Z
      eqn:Hr; [ | discriminate H ].
    injection H as <-. apply andb_prop in Hr as [Hlo Hhi].
    apply Z.leb_le in Hlo. apply Z.leb_le in Hhi.
    split; [ discriminate | split; [ exact (digits_value_all_digits _ _ _ Hn) | lia ] ]. }
  subst body signed.
  destruct (decide (c = "-"%char)) as [-> | Hm].
  - exists "-", rest. simpl in Hbody. split; [ reflexivity | ]. split; [ auto | exact Hbody ].
  - rewrite (bool_decide_eq_false_2 _ Hm) in Hbody. simpl in Hbody.
    destruct (decide (c = "+"%char)) as [-> | Hp].
    + exists "+", rest. simpl in Hbody. split; [ reflexivity | ]. split; [ auto | exact Hbody ].
    + rewrite (bool_decide_eq_false_2 _ Hp) in Hbody.
      exists "", (String c rest). split; [ reflexivity | ]. split; [ auto | exact Hbody ].
Qed.

(** What [CreateClassroom] writes as [InstanceCount] is what
    [DescribeClassroom] reads back. *)
Lemma InstanceCount_round_trips (ami keyName : string) (number : Z) :
  Go.minInt <= number <= Go.maxInt ->
  Go.Atoi (Go.index (stack_parameters ami keyName number) "InstanceCount")
  = (number, None).
Proof.
  intros Hrange. unfold Go.index.
  rewrite stack_parameters_InstanceCount. simpl. apply Atoi_Itoa. exact Hrange.
Qed.

(** *** Validation of the name *)

Section validation.
Context {W : Type} (c : Controller W).

Lemma CreateClassroom_invalid name number st :
  Go.MatchString name = false ->
  CreateClassroom c name number st
  = (Some "invalid name: must match pattern ^[a-zA-Z][-a-zA-Z0-9]*$", st).
Proof. intros H. unfold CreateClassroom. rewrite H. reflexivity. Qed.

End validation.

(** C1. An environment name that does not match the required pattern
    makes [CreateClassroom] return the validation error, whatever the
    instance count, with the provider state and the trace as they were:
    no operation of [AtlasClient] or [AWSClient] has been invoked. *)
Theorem CreateClassroom_validates_name_first
  {W} (c : Controller W) (name : string) (number : Z) (st : State W) :
  Go.MatchString name = false ->
  CreateClassroom c name number st
  = (Some ("invalid name: must match pattern " +:+ Go.requiredPattern), st)
  /\ adapter_calls (trace (CreateClassroom c name number st).2)
     = adapter_calls (trace st).
Proof.
  intros H. rewrite (CreateClassroom_invalid c name number st H). split; reflexivity.
Qed.

Lemma CreateClassroom_validates_name_first_witness :
  Go.MatchString "1bad" = false
  /\ (CreateClassroom (fake.controller fake.all_ok) "1bad" 3 fake.start
      = (Some "invalid name: must match pattern ^[a-zA-Z][-a-zA-Z0-9]*$", fake.start)
      /\ adapter_calls (trace (CreateClassroom (fake.controller fake.all_ok)
                                              "1bad" 3 fake.start).2)
         = adapter_calls (trace fake.start)).
Proof.
  split; [ reflexivity | ].
  apply (CreateClassroom_validates_name_first
           (fake.controller fake.all_ok) "1bad" 3 fake.start).
  reflexivity.
Defined.

(** *** Destroying a classroom *)

(** C2. [DestroyClassroom] deletes the stack, then the key pair, then the
    stored key object, each under the name derived from the environment
    name; the error of a step is returned as it is and the later steps
    are not called. *)
Theorem DestroyClassroom_order_and_short_circuit
  {W} (c : Controller W) (name : string) (w : W) (tr : list Event) :
  let p := "classroom-" +:+ name in
  let st := {| world := w; trace := tr |} in
  (forall e w1,
      DeleteStack (AWSClient c) p w = (Some e, w1) ->
      exists new,
        DestroyClassroom c name st = (Some e, {| world := w1; trace := (tr ++ new)%list |})
        /\ adapter_calls new = [EvDeleteStack p])
  /\ (forall e w1 w2,
      DeleteStack (AWSClient c) p w = (None, w1) ->
      DeleteKey (AWSClient c) p w1 = (Some e, w2) ->
      exists new,
        DestroyClassroom c name st = (Some e, {| world := w2; trace := (tr ++ new)%list |})
        /\ adapter_calls new = [EvDeleteStack p; EvDeleteKey p])
  /\ (forall r w1 w2 w3,
      DeleteStack (AWSClient c) p w = (None, w1) ->
      DeleteKey (AWSClient c) p w1 = (None, w2) ->
      DeleteObject (AWSClient c) ("keys/" +:+ p) w2 = (r, w3) ->
      exists new,
        DestroyClassroom c name st = (r, {| world := w3; trace := (tr ++ new)%list |})
        /\ adapter_calls new
           = [EvDeleteStack p; EvDeleteKey p; EvDeleteObject ("keys/" +:+ p)]).
Proof.
  intros p st. subst p st. repeat split.
  - intros e w1 H1. eexists. run_workflow. unfold prefix. rewrite H1. simpl.
    split; [ rewrite <- app_assoc; reflexivity | reflexivity ].
  - intros e w1 w2 H1 H2. eexists. run_workflow. unfold prefix. rewrite H1. simpl.
    rewrite H2. simpl.
    split; [ rewrite <- !app_assoc; reflexivity | reflexivity ].
  - intros r w1 w2 w3 H1 H2 H3. eexists. run_workflow. unfold prefix.
    rewrite H1. simpl. rewrite H2. simpl. rewrite H3. simpl.
    split; [ rewrite <- !app_assoc; reflexivity | reflexivity ].
Qed.

Lemma DestroyClassroom_order_and_short_circuit_witness :
  (exists new,
      DestroyClassroom (fake.controller (fake.with_deletions (Some "no such stack") None None))
                       "demo" fake.start
      = (Some "no such stack", {| world := 1%nat; trace := ([] ++ new)%list |})
      /\ adapter_calls new = [EvDeleteStack "classroom-demo"])
  /\ (exists new,
         DestroyClassroom (fake.controller (fake.with_deletions None (Some "no such key") None))
                          "demo" fake.start
         = (Some "no such key", {| world := 2%nat; trace := ([] ++ new)%list |})
         /\ adapter_calls new = [EvDeleteStack "classroom-demo"; EvDeleteKey "classroom-demo"])
  /\ (exists new,
         DestroyClassroom (fake.controller fake.all_ok) "demo" fake.start
         = (None, {| world := 3%nat; trace := ([] ++ new)%list |})
         /\ adapter_calls new
            = [EvDeleteStack "classroom-demo"; EvDeleteKey "classroom-demo";
               EvDeleteObject "keys/classroom-demo"]).
Proof.
  split; [ | split ].
  - apply (proj1 (DestroyClassroom_order_and_short_circuit
                    (fake.controller (fake.with_deletions (Some "no such stack") None None))
                    "demo" 0%nat []) "no such stack" 1%nat).
    reflexivity.
  - apply (proj1 (proj2 (DestroyClassroom_order_and_short_circuit
                    (fake.controller (fake.with_deletions None (Some "no such key") None))
                    "demo" 0%nat [])) "no such key" 1%nat 2%nat).
    + reflexivity.
    + reflexivity.
  - apply (proj2 (proj2 (DestroyClassroom_order_and_short_circuit
                    (fake.controller fake.all_ok) "demo" 0%nat []))
                 None 1%nat 2%nat 3%nat).
    + reflexivity.
    + reflexivity.
    + reflexivity.
Defined.

(** *** Creating a classroom *)

(** C3. With a valid name and an image lookup that succeeds, a mapping
    without an entry for the configured region makes [CreateClassroom]
    return an error; the image lookup is the only call it has made: no
    [CreateKey], no [StoreObject], no [CreateStack]. *)
Theorem CreateClassroom_region_without_image
  {W} (c : Controller W) (name : string) (number : Z) (w w1 : W)
  (tr : list Event) (amiMap : Go.strmap) :
  Go.MatchString name = true ->
  GetLatestAMIs (AtlasClient c) (VagrantBoxName c) w = ((amiMap, None), w1) ->
  (forall t, amiMap = Some t -> t !! Region c = None) ->
  exists new,
    CreateClassroom c name number {| world := w; trace := tr |}
    = (Some ("Couldn't find AMI in region " +:+ Region c),
       {| world := w1; trace := (tr ++ new)%list |})
    /\ adapter_calls new = [EvGetLatestAMIs (VagrantBoxName c)].
Proof.
  intros Hname Hamis Hregion. eexists. run_workflow.
  rewrite Hname. simpl. rewrite Hamis. simpl.
  rewrite (index2_absent amiMap (Region c) Hregion). simpl.
  split; [ rewrite <- ?app_assoc; reflexivity | reflexivity ].
Qed.

Lemma CreateClassroom_region_without_image_witness :
  exists new,
    CreateClassroom (fake.controller (fake.with_amis (Some {[ "eu-west-1" := "ami-9" ]})))
                    "demo" 3 fake.start
    = (Some "Couldn't find AMI in region us-west-2",
       {| world := 1%nat; trace := ([] ++ new)%list |})
    /\ adapter_calls new = [EvGetLatestAMIs "bosh-lite"].
Proof.
  apply (CreateClassroom_region_without_image
           (fake.controller (fake.with_amis (Some {[ "eu-west-1" := "ami-9" ]})))
           "demo" 3 0%nat 1%nat [] (Some {[ "eu-west-1" := "ami-9" ]})).
  - reflexivity.
  - reflexivity.
  - intros t Ht. injection Ht as <-. vm_compute. reflexivity.
Defined.

(** *** The key-pair adapter *)

Section create_key.
Context {W : Type} (cl : aws.Client W) (name : string) (w w1 : W)
  (out : ec2.CreateKeyPairOutput.t).
Hypothesis answered :
  ec2.CreateKeyPair (aws.EC2 cl) {| ec2.CreateKeyPairInput.KeyName := Some name |} w
  = ((out, None), w1).

Lemma CreateKey_provider_error (e : Go.error) (w' : W)
  (out' : ec2.CreateKeyPairOutput.t) :
  ec2.CreateKeyPair (aws.EC2 cl) {| ec2.CreateKeyPairInput.KeyName := Some name |} w
  = ((out', Some e), w') ->
  aws.CreateKey cl name w = (("", Some e), w').
Proof. intros H. unfold aws.CreateKey, aws.String. rewrite H. reflexivity. Qed.

Lemma CreateKey_no_name :
  ec2.CreateKeyPairOutput.KeyName out = None ->
  aws.CreateKey cl name w = (("", Some "CreateKeyPair returned invalid data"), w1).
Proof.
  intros H. unfold aws.CreateKey, aws.String. rewrite answered, H. reflexivity.
Qed.

Lemma CreateKey_other_name got :
  ec2.CreateKeyPairOutput.KeyName out = Some got -> got <> name ->
  aws.CreateKey cl name w = (("", Some (aws.key_mismatch name got)), w1).
Proof.
  intros H Hne. unfold aws.CreateKey, aws.String. rewrite answered, H.
  rewrite bool_decide_eq_false_2 by exact Hne. reflexivity.
Qed.

Lemma CreateKey_no_material :
  ec2.CreateKeyPairOutput.KeyName out = Some name ->
  ec2.CreateKeyPairOutput.KeyMaterial out = None
  \/ ec2.CreateKeyPairOutput.KeyMaterial out = Some "" ->
  aws.CreateKey cl name w = (("", Some "CreateKeyPair returned an empty key"), w1).
Proof.
  intros H Hm. unfold aws.CreateKey, aws.String. rewrite answered, H.
  rewrite bool_decide_eq_true_2 by reflexivity. simpl.
  destruct Hm as [-> | ->]; reflexivity.
Qed.

Lemma CreateKey_material material :
  ec2.CreateKeyPairOutput.KeyName out = Some name ->
  ec2.CreateKeyPairOutput.KeyMaterial out = Some material -> material <> "" ->
  aws.CreateKey cl name w = ((material, None), w1).
Proof.
  intros H Hm Hne. unfold aws.CreateKey, aws.String. rewrite answered, H, Hm.
  rewrite bool_decide_eq_true_2 by reflexivity. simpl.
  rewrite bool_decide_eq_false_2 by exact Hne. reflexivity.
Qed.

End create_key.

Section create.
Context {W : Type} (c : Controller W) (name : string) (number : Z)
  (w w1 : W) (tr : list Event) (t : gmap string string) (ami : string).
Hypothesis valid : Go.MatchString name = true.
Hypothesis looked_up :
  GetLatestAMIs (AtlasClient c) (VagrantBoxName c) w = ((Some t, None), w1).
Hypothesis in_region : t !! Region c = Some ami.

Let p := "classroom-" +:+ name.

Lemma CreateClassroom_key_failed key e w2 :
  CreateKey (AWSClient c) p w1 = ((key, Some e), w2) ->
  exists new,
    CreateClassroom c name number {| world := w; trace := tr |}
    = (Some e, {| world := w2; trace := (tr ++ new)%list |})
    /\ adapter_calls new = [EvGetLatestAMIs (VagrantBoxName c); EvCreateKey p].
Proof.
  intros Hkey. eexists. run_workflow.
  rewrite valid. simpl. rewrite looked_up. simpl. rewrite in_region. simpl.
  fold p. rewrite Hkey. simpl.
  split; [ rewrite <- ?app_assoc; reflexivity | reflexivity ].
Qed.

Lemma CreateClassroom_stack_reached pem w2 w3 r w4 :
  CreateKey (AWSClient c) p w1 = ((pem, None), w2) ->
  StoreObject (AWSClient c) ("keys/" +:+ p) pem
              "bosh101_ssh_key.pem" "application/x-pem-file" w2 = (None, w3) ->
  CreateStack (AWSClient c) p (Template c) (stack_parameters ami p number) w3 = (r, w4) ->
  exists new,
    CreateClassroom c name number {| world := w; trace := tr |}
    = (r.2, {| world := w4; trace := (tr ++ new)%list |})
    /\ adapter_calls new
       = [EvGetLatestAMIs (VagrantBoxName c);
          EvCreateKey p;
          EvURLForObject ("keys/" +:+ p);
          EvStoreObject ("keys/" +:+ p) pem "bosh101_ssh_key.pem" "application/x-pem-file";
          EvCreateStack p (Template c) (stack_parameters ami p number)].
Proof.
  intros Hkey Hstore Hstack. eexists. run_workflow.
  rewrite valid. simpl. rewrite looked_up. simpl. rewrite in_region. simpl.
  fold p. rewrite Hkey. simpl. rewrite Hstore. simpl.
  fold (stack_parameters ami p number). rewrite Hstack. destruct r as [id err]. simpl.
  split; [ rewrite <- ?app_assoc; reflexivity | reflexivity ].
Qed.

End create.

(** C4. When the provider answers [CreateKeyPair] without an error,
    [CreateKey] fails if the answer has no key name, a key name other
    than the requested one, or no or empty key material, and returns
    the key material otherwise. When [CreateKey] fails inside
    [CreateClassroom], that error is the result and neither
    [StoreObject] nor [CreateStack] has been called. *)
Theorem CreateKey_checks_answer_and_failure_stops_create :
  (forall W (cl : aws.Client W) (name : string) (w w1 : W)
          (out : ec2.CreateKeyPairOutput.t),
      ec2.CreateKeyPair (aws.EC2 cl) {| ec2.CreateKeyPairInput.KeyName := Some name |} w
      = ((out, None), w1) ->
      ((ec2.CreateKeyPairOutput.KeyName out = None
        \/ (exists got, ec2.CreateKeyPairOutput.KeyName out = Some got /\ got <> name)
        \/ ec2.CreateKeyPairOutput.KeyMaterial out = None
        \/ ec2.CreateKeyPairOutput.KeyMaterial out = Some "") ->
       exists e, aws.CreateKey cl name w = (("", Some e), w1))
      /\ (forall material,
             ec2.CreateKeyPairOutput.KeyName out = Some name ->
             ec2.CreateKeyPairOutput.KeyMaterial out = Some material ->
             material <> "" ->
             aws.CreateKey cl name w = ((material, None), w1)))
  /\ (forall W (c : Controller W) (name : string) (number : Z) (w w1 w2 : W)
             (tr : list Event) (t : gmap string string) (ami key : string)
             (e : Go.error),
         Go.MatchString name = true ->
         GetLatestAMIs (AtlasClient c) (VagrantBoxName c) w = ((Some t, None), w1) ->
         t !! Region c = Some ami ->
         CreateKey (AWSClient c) ("classroom-" +:+ name) w1 = ((key, Some e), w2) ->
         exists new,
           CreateClassroom c name number {| world := w; trace := tr |}
           = (Some e, {| world := w2; trace := (tr ++ new)%list |})
           /\ adapter_calls new
              = [EvGetLatestAMIs (VagrantBoxName c); EvCreateKey ("classroom-" +:+ name)]).
Proof.
  split.
  - intros W cl name w w1 out Hans. split.
    + intros Hbad.
      destruct (ec2.CreateKeyPairOutput.KeyName out) as [got|] eqn:Hname.
      * destruct (decide (got = name)) as [-> | Hne].
        -- destruct Hbad as [Hbad | [[got [Hgot Hne]] | Hbad]].
           ++ discriminate Hbad.
           ++ injection Hgot as <-. contradiction Hne. reflexivity.
           ++ eexists. apply (CreateKey_no_material cl name w w1 out Hans Hname Hbad).
        -- eexists. apply (CreateKey_other_name cl name w w1 out Hans got Hname Hne).
      * eexists. apply (CreateKey_no_name cl name w w1 out Hans Hname).
    + intros material Hname Hmat Hne.
      apply (CreateKey_material cl name w w1 out Hans material Hname Hmat Hne).
  - intros W c name number w w1 w2 tr t ami key e Hvalid Hamis Hregion Hkey.
    apply (CreateClassroom_key_failed c name number w w1 tr t ami
             Hvalid Hamis Hregion key e w2 Hkey).
Qed.

Lemma CreateKey_checks_answer_and_failure_stops_create_witness :
  (exists e,
      aws.CreateKey {| aws.EC2 := fake.ec2_api (fake.key_pair (Some "classroom-x") (Some "")) None |}
                    "classroom-demo" 0%nat
      = (("", Some e), 1%nat))
  /\ aws.CreateKey
       {| aws.EC2 := fake.ec2_api (fake.key_pair (Some "classroom-demo") (Some "PEM")) None |}
       "classroom-demo" 0%nat
     = (("PEM", None), 1%nat)
  /\ (exists new,
         CreateClassroom
           (fake.controller_over
              (fake.ec2_api (fake.key_pair (Some "classroom-x") (Some "PEM")) None)
              fake.all_ok)
           "demo" 3 fake.start
         = (Some "tried to create key named 'classroom-demo' but generated key was called 'classroom-x'",
            {| world := 2%nat; trace := ([] ++ new)%list |})
         /\ adapter_calls new = [EvGetLatestAMIs "bosh-lite"; EvCreateKey "classroom-demo"]).
Proof.
  pose proof CreateKey_checks_answer_and_failure_stops_create as [Hkey Hcreate].
  split; [ | split ].
  - apply (proj1 (Hkey nat
                       {| aws.EC2 := fake.ec2_api (fake.key_pair (Some "classroom-x") (Some "")) None |}
                       "classroom-demo" 0%nat 1%nat
                       (fake.key_pair (Some "classroom-x") (Some "")) eq_refl)).
    right. left. exists "classroom-x". split; [ reflexivity | discriminate ].
  - apply (proj2 (Hkey nat
                       {| aws.EC2 := fake.ec2_api (fake.key_pair (Some "classroom-demo") (Some "PEM")) None |}
                       "classroom-demo" 0%nat 1%nat
                       (fake.key_pair (Some "classroom-demo") (Some "PEM")) eq_refl)).
    + reflexivity.
    + reflexivity.
    + discriminate.
  - apply (Hcreate nat
                   (fake.controller_over
                      (fake.ec2_api (fake.key_pair (Some "classroom-x") (Some "PEM")) None)
                      fake.all_ok)
                   "demo" 3 0%nat 1%nat 2%nat [] {[ "us-west-2" := "ami-1234" ]}
                   "ami-1234" "").
    + reflexivity.
    + reflexivity.
    + vm_compute. reflexivity.
    + reflexivity.
Defined.

(** C10. [CreateClassroom] never looks at the instance count: for every
    integer, zero and negative ones included, once the image lookup, the
    key creation and the upload have succeeded, [CreateStack] is called
    with the parameter [InstanceCount] set to [strconv.Itoa(number)], and
    its error is the result of the workflow. *)
Theorem CreateClassroom_passes_count_unchecked
  {W} (c : Controller W) (name : string) (number : Z) (w w1 w2 w3 w4 : W)
  (tr : list Event) (t : gmap string string) (ami pem : string)
  (r : string * option Go.error) :
  let p := "classroom-" +:+ name in
  Go.MatchString name = true ->
  GetLatestAMIs (AtlasClient c) (VagrantBoxName c) w = ((Some t, None), w1) ->
  t !! Region c = Some ami ->
  CreateKey (AWSClient c) p w1 = ((pem, None), w2) ->
  StoreObject (AWSClient c) ("keys/" +:+ p) pem
              "bosh101_ssh_key.pem" "application/x-pem-file" w2 = (None, w3) ->
  CreateStack (AWSClient c) p (Template c) (stack_parameters ami p number) w3 = (r, w4) ->
  Go.index2 (stack_parameters ami p number) "InstanceCount" = (Go.Itoa number, true)
  /\ exists new,
      CreateClassroom c name number {| world := w; trace := tr |}
      = (r.2, {| world := w4; trace := (tr ++ new)%list |})
      /\ adapter_calls new
         = [EvGetLatestAMIs (VagrantBoxName c);
            EvCreateKey p;
            EvURLForObject ("keys/" +:+ p);
            EvStoreObject ("keys/" +:+ p) pem "bosh101_ssh_key.pem" "application/x-pem-file";
            EvCreateStack p (Template c) (stack_parameters ami p number)].
Proof.
  intros p Hvalid Hamis Hregion Hkey Hstore Hstack. split.
  - apply stack_parameters_InstanceCount.
  - apply (CreateClassroom_stack_reached c name number w w1 tr t ami
             Hvalid Hamis Hregion pem w2 w3 r w4 Hkey Hstore Hstack).
Qed.

Lemma CreateClassroom_passes_count_unchecked_witness :
  Go.index2 (stack_parameters "ami-1234" "classroom-demo" (-2)) "InstanceCount"
  = ("-2", true)
  /\ exists new,
      CreateClassroom (fake.controller fake.all_ok) "demo" (-2) fake.start
      = (None, {| world := 4%nat; trace := ([] ++ new)%list |})
      /\ adapter_calls new
         = [EvGetLatestAMIs "bosh-lite";
            EvCreateKey "classroom-demo";
            EvURLForObject "keys/classroom-demo";
            EvStoreObject "keys/classroom-demo" "PEM" "bosh101_ssh_key.pem"
                          "application/x-pem-file";
            EvCreateStack "classroom-demo" "{}"
                          (stack_parameters "ami-1234" "classroom-demo" (-2))].
Proof.
  apply (CreateClassroom_passes_count_unchecked
           (fake.controller fake.all_ok) "demo" (-2) 0%nat 1%nat 2%nat 3%nat 4%nat []
           {[ "us-west-2" := "ami-1234" ]} "ami-1234" "PEM" ("stack-id", None)).
  - reflexivity.
  - reflexivity.
  - vm_compute. reflexivity.
  - reflexivity.
  - reflexivity.
  - reflexivity.
Defined.

(** *** The naming scheme *)

Lemma prefix_spec (name : string) : prefix name = "classroom-" +:+ name.
Proof. reflexivity. Qed.

Ltac addressed := repeat (constructor; simpl; try (split; reflexivity || apply stack_parameters_KeyName); try reflexivity).

Lemma CreateClassroom_addresses {W} (c : Controller W) name number (st : State W) :
  exists new,
    trace (CreateClassroom c name number st).2 = (trace st ++ new)%list
    /\ Forall (addresses name) new.
Proof.
  unfold CreateClassroom.
  destruct (Go.MatchString name); simpl.
  2:{ exists []. split; [ symmetry; apply app_nil_r | constructor ]. }
  run_workflow.
  destruct (GetLatestAMIs (AtlasClient c) (VagrantBoxName c) (world st))
    as [[amiMap [e|]] w1]; simpl.
  { trace_appended. addressed. }
  destruct (Go.index2 amiMap (Region c)) as [ami [|]]; simpl.
  2:{ trace_appended. addressed. }
  destruct (CreateKey (AWSClient c) ("classroom-" +:+ name) w1)
    as [[pem [e|]] w2]; simpl.
  { trace_appended. addressed. }
  destruct (StoreObject (AWSClient c) ("keys/" +:+ "classroom-" +:+ name) pem
              "bosh101_ssh_key.pem" "application/x-pem-file" w2) as [[e|] w3]; simpl.
  { trace_appended. addressed. }
  fold (stack_parameters ami ("classroom-" +:+ name) number).
  destruct (CreateStack (AWSClient c) ("classroom-" +:+ name) (Template c)
              (stack_parameters ami ("classroom-" +:+ name) number) w3)
    as [[id err] w4]; simpl.
  trace_appended. addressed.
Qed.

Lemma DestroyClassroom_addresses {W} (c : Controller W) name (st : State W) :
  exists new,
    trace (DestroyClassroom c name st).2 = (trace st ++ new)%list
    /\ Forall (addresses name) new.
Proof.
  run_workflow.
  destruct (DeleteStack (AWSClient c) ("classroom-" +:+ name) (world st))
    as [[e|] w1]; simpl.
  { trace_appended. addressed. }
  destruct (DeleteKey (AWSClient c) ("classroom-" +:+ name) w1) as [[e|] w2]; simpl.
  { trace_appended. addressed. }
  destruct (DeleteObject (AWSClient c) ("keys/" +:+ "classroom-" +:+ name) w2)
    as [err w3]; simpl.
  trace_appended. addressed.
Qed.

Lemma DescribeClassroom_addresses {W} range (c : Controller W) name format
  (st : State W) :
  exists new,
    trace (DescribeClassroom range c name format st).2 = (trace st ++ new)%list
    /\ Forall (addresses name) new.
Proof.
  run_workflow.
  destruct (DescribeStack (AWSClient c) ("classroom-" +:+ name) (world st))
    as [[[[status stackID] parameters] [e|]] w1]; simpl.
  { trace_appended. addressed. }
  destruct (Go.Atoi (Go.index parameters "InstanceCount")) as [number [e|]]; simpl.
  { trace_appended. addressed. }
  destruct (GetHostsFromStackID (AWSClient c) stackID w1) as [[hosts [e|]] w2]; simpl.
  { trace_appended. addressed. }
  destruct (bool_decide (format = "json")); simpl.
  { trace_appended. addressed. }
  destruct (bool_decide (format = "plain")); simpl.
  { trace_appended. addressed. }
  trace_appended. addressed.
Qed.

(** C9. One naming scheme serves the three workflows: whatever the
    collaborators answer, every key pair and stack that
    [CreateClassroom], [DestroyClassroom] and [DescribeClassroom] name
    is ["classroom-" + name] (the [KeyName] stack parameter included) and
    every stored key object is ["keys/classroom-" + name]. *)
Theorem workflows_share_naming_scheme
  {W} (range : gmap string string -> list (string * string))
  (c : Controller W) (name format : string) (number : Z) (st : State W) :
  prefix name = "classroom-" +:+ name
  /\ (exists new,
         trace (CreateClassroom c name number st).2 = (trace st ++ new)%list
         /\ Forall (addresses name) new)
  /\ (exists new,
         trace (DestroyClassroom c name st).2 = (trace st ++ new)%list
         /\ Forall (addresses name) new)
  /\ (exists new,
         trace (DescribeClassroom range c name format st).2 = (trace st ++ new)%list
         /\ Forall (addresses name) new).
Proof.
  split; [ reflexivity | ].
  split; [ apply CreateClassroom_addresses | ].
  split; [ apply DestroyClassroom_addresses | apply DescribeClassroom_addresses ].
Qed.

(** *** Describing a classroom *)

Section describe.
Context {W : Type} (range : gmap string string -> list (string * string))
  (c : Controller W) (name format : string) (w w1 : W) (tr : list Event)
  (status stackID : string) (parameters : Go.strmap).
Hypothesis described :
  DescribeStack (AWSClient c) ("classroom-" +:+ name) w
  = ((status, stackID, parameters, None), w1).

Let p := "classroom-" +:+ name.
Let st := {| world := w; trace := tr |}.

Lemma DescribeClassroom_count_unreadable :
  Go.failed (Go.Atoi (Go.index parameters "InstanceCount")) = true ->
  DescribeClassroom range c name format st
  = (("", Some malformed_stack),
     {| world := w1;
        trace := (tr ++ [EvDescribeStack p; EvURLForObject ("keys/" +:+ p)])%list |}).
Proof.
  intros Hfail. run_workflow. rewrite described. simpl.
  destruct (Go.Atoi (Go.index parameters "InstanceCount")) as [n [e|]].
  - simpl. rewrite <- app_assoc. reflexivity.
  - discriminate Hfail.
Qed.

Lemma DescribeClassroom_rendered number hosts w2 :
  Go.Atoi (Go.index parameters "InstanceCount") = (number, None) ->
  GetHostsFromStackID (AWSClient c) stackID w1 = ((hosts, None), w2) ->
  DescribeClassroom range c name format st
  = (if bool_decide (format = "json")
     then (Go.render 0
             (Go.JObject
                [("status", Go.JString status);
                 ("number", Go.JNumber number);
                 ("ssh_key", Go.JString (URLForObject (AWSClient c) ("keys/" +:+ p)));
                 ("hosts", Go.marshal_strmap hosts)]), None)
     else if bool_decide (format = "plain")
     then ("status: " +:+ status +:+ Go.newline
           +:+ "number: " +:+ Go.Itoa number +:+ Go.newline
           +:+ "ssh_key: " +:+ URLForObject (AWSClient c) ("keys/" +:+ p) +:+ Go.newline
           +:+ "hosts:" +:+ Go.newline
           +:+ Go.Join (map host_line (range_strmap range hosts)) Go.newline, None)
     else ("", Some format_error),
     {| world := w2;
        trace := (tr ++ [EvDescribeStack p; EvURLForObject ("keys/" +:+ p);
                         EvGetHostsFromStackID stackID])%list |}).
Proof.
  intros Hcount Hhosts. run_workflow. rewrite described. simpl.
  rewrite Hcount. simpl. rewrite Hhosts. simpl.
  rewrite <- !app_assoc. simpl.
  destruct (bool_decide (format = "json")); [ reflexivity | ].
  destruct (bool_decide (format = "plain")); reflexivity.
Qed.

End describe.

(** C5. When [DescribeStack] succeeds and the stack parameters have no
    [InstanceCount], or a value that [strconv.Atoi] rejects,
    [DescribeClassroom] returns the empty string and the malformed-stack
    error, for every format; the hosts are not looked up. *)
Theorem DescribeClassroom_malformed_count
  {W} (range : gmap string string -> list (string * string))
  (c : Controller W) (name format : string) (w w1 : W) (tr : list Event)
  (status stackID : string) (parameters : Go.strmap) :
  DescribeStack (AWSClient c) ("classroom-" +:+ name) w
  = ((status, stackID, parameters, None), w1) ->
  (forall t, parameters = Some t -> t !! "InstanceCount" = None)
  \/ (exists t v, parameters = Some t /\ t !! "InstanceCount" = Some v
                  /\ Go.failed (Go.Atoi v) = true) ->
  DescribeClassroom range c name format {| world := w; trace := tr |}
  = (("", Some "malformed CloudFormation stack: missing or invalid parameter 'InstanceCount'"),
     {| world := w1;
        trace := (tr ++ [EvDescribeStack ("classroom-" +:+ name);
                         EvURLForObject ("keys/" +:+ "classroom-" +:+ name)])%list |}).
Proof.
  intros Hdescribed Hcount.
  apply (DescribeClassroom_count_unreadable range c name format w w1 tr
           status stackID parameters Hdescribed).
  destruct Hcount as [Hmissing | (t & v & -> & Hv & Hfail)].
  - rewrite (index_absent parameters "InstanceCount" Hmissing). apply Atoi_empty.
  - unfold Go.index. rewrite (index2_present t "InstanceCount" v Hv). exact Hfail.
Qed.

Lemma DescribeClassroom_malformed_count_witness :
  DescribeClassroom map_to_list
    (fake.controller (fake.with_parameters (Some {[ "InstanceCount" := "abc" ]})))
    "demo" "json" fake.start
  = (("", Some "malformed CloudFormation stack: missing or invalid parameter 'InstanceCount'"),
     {| world := 1%nat;
        trace := ([] ++ [EvDescribeStack ("classroom-" +:+ "demo");
                         EvURLForObject ("keys/" +:+ "classroom-" +:+ "demo")])%list |}).
Proof.
  apply (DescribeClassroom_malformed_count map_to_list
           (fake.controller (fake.with_parameters (Some {[ "InstanceCount" := "abc" ]})))
           "demo" "json" 0%nat 1%nat [] "CREATE_COMPLETE" "stack-id"
           (Some {[ "InstanceCount" := "abc" ]})).
  - reflexivity.
  - right. exists {[ "InstanceCount" := "abc" ]}, "abc".
    split; [ reflexivity | split; [ vm_compute; reflexivity | reflexivity ] ].
Defined.

(** C7. When [DescribeStack], the parsing of [InstanceCount] and
    [GetHostsFromStackID] all succeed, [DescribeClassroom] renders the
    record of the provider's status string, the parsed count, the URL of
    the object ["keys/classroom-" + name] and the hosts of the stack id:
    for ["json"] as the indented JSON object with the members [status],
    [number], [ssh_key], [hosts] in that order; for ["plain"] as the lines
    [status: ], [number: ], [ssh_key: ], [hosts:] followed by one line
    [label<TAB>address] for each host, in the order the runtime ranges
    over the map; for any other format as an error. *)
Theorem DescribeClassroom_renders_record
  {W} (range : gmap string string -> list (string * string))
  (c : Controller W) (name format : string) (w w1 w2 : W) (tr : list Event)
  (status stackID : string) (parameters hosts : Go.strmap) (number : Z) :
  (forall t, range t ≡ₚ map_to_list t) ->
  DescribeStack (AWSClient c) ("classroom-" +:+ name) w
  = ((status, stackID, parameters, None), w1) ->
  Go.Atoi (Go.index parameters "InstanceCount") = (number, None) ->
  GetHostsFromStackID (AWSClient c) stackID w1 = ((hosts, None), w2) ->
  let url := URLForObject (AWSClient c) ("keys/" +:+ "classroom-" +:+ name) in
  let st := {| world := w; trace := tr |} in
  let st' := {| world := w2;
                trace := (tr ++ [EvDescribeStack ("classroom-" +:+ name);
                                 EvURLForObject ("keys/" +:+ "classroom-" +:+ name);
                                 EvGetHostsFromStackID stackID])%list |} in
  (format = "json" ->
   DescribeClassroom range c name format st
   = ((Go.render 0
         (Go.JObject [("status", Go.JString status);
                      ("number", Go.JNumber number);
                      ("ssh_key", Go.JString url);
                      ("hosts", Go.marshal_strmap hosts)]), None), st'))
  /\ (format = "plain" ->
      exists order,
        order ≡ₚ entries hosts
        /\ DescribeClassroom range c name format st
           = (("status: " +:+ status +:+ Go.newline
               +:+ "number: " +:+ Go.Itoa number +:+ Go.newline
               +:+ "ssh_key: " +:+ url +:+ Go.newline
               +:+ "hosts:" +:+ Go.newline
               +:+ Go.Join (map host_line order) Go.newline, None), st'))
  /\ (format <> "json" -> format <> "plain" ->
      DescribeClassroom range c name format st
      = (("", Some "expected format to be either 'json' or 'plain'"), st')).
Proof.
  intros Hrange Hdescribed Hcount Hhosts url st st'. subst url st st'.
  rewrite (DescribeClassroom_rendered range c name format w w1 tr status stackID
             parameters Hdescribed number hosts w2 Hcount Hhosts).
  split; [ | split ].
  - intros ->. reflexivity.
  - intros ->. exists (range_strmap range hosts). split.
    + destruct hosts as [t|]; [ apply Hrange | reflexivity ].
    + reflexivity.
  - intros Hj Hp.
    rewrite bool_decide_eq_false_2 by exact Hj.
    rewrite bool_decide_eq_false_2 by exact Hp. reflexivity.
Qed.

Lemma DescribeClassroom_renders_record_witness :
  DescribeClassroom map_to_list (fake.controller fake.all_ok) "demo" "json" fake.start
  = ((Go.render 0
        (Go.JObject [("status", Go.JString "CREATE_COMPLETE");
                     ("number", Go.JNumber 3);
                     ("ssh_key", Go.JString "https://s3.example/keys/classroom-demo");
                     ("hosts", Go.marshal_strmap (Some {[ "vm-0" := "10.0.0.1" ]}))]),
      None),
     {| world := 2%nat;
        trace := ([] ++ [EvDescribeStack ("classroom-" +:+ "demo");
                         EvURLForObject ("keys/" +:+ "classroom-" +:+ "demo");
                         EvGetHostsFromStackID "stack-id"])%list |}).
Proof.
  apply (DescribeClassroom_renders_record map_to_list (fake.controller fake.all_ok)
           "demo" "json" 0%nat 1%nat 2%nat [] "CREATE_COMPLETE" "stack-id"
           (Some {[ "InstanceCount" := "3" ]}) (Some {[ "vm-0" := "10.0.0.1" ]}) 3).
  - intros t. reflexivity.
  - reflexivity.
  - vm_compute. reflexivity.
  - reflexivity.
  - reflexivity.
Defined.

(** *** Listing classrooms *)

Section list.
Context {W : Type} (c : Controller W) (format : string) (w w1 : W)
  (tr : list Event) (keys : Go.strslice).
Hypothesis listed : ListKeys (AWSClient c) "classroom-" w = ((keys, None), w1).

Lemma ListClassrooms_rendered :
  ListClassrooms c format {| world := w; trace := tr |}
  = (if bool_decide (format = "json")
     then (Go.render 0
             (Go.marshal_strslice
                (map (fun k => Go.TrimPrefix k "classroom-") <$> keys)), None)
     else if bool_decide (format = "plain")
     then (Go.Join (map (fun k => Go.TrimPrefix k "classroom-") (Go.elements keys))
                   Go.newline, None)
     else ("", Some format_error),
     {| world := w1; trace := (tr ++ [EvListKeys "classroom-"])%list |}).
Proof.
  run_workflow. rewrite listed. simpl.
  destruct (bool_decide (format = "json")); [ reflexivity | ].
  destruct (bool_decide (format = "plain")); [ | reflexivity ].
  destruct keys; reflexivity.
Qed.

End list.

(** C6, as the program has it. When [ListKeys("classroom-")] succeeds,
    [ListClassrooms] strips the prefix ["classroom-"] from each name; for
    ["plain"] it returns the stripped names joined by newlines; for
    ["json"] it returns the indented JSON array of the stripped names
    when the slice it was given is not nil, and [null] when it is nil;
    for any other format it returns an error. *)
Theorem ListClassrooms_strips_and_renders
  {W} (c : Controller W) (format : string) (w w1 : W) (tr : list Event)
  (keys : Go.strslice) :
  ListKeys (AWSClient c) "classroom-" w = ((keys, None), w1) ->
  let names := map (fun k => Go.TrimPrefix k "classroom-") (Go.elements keys) in
  let st := {| world := w; trace := tr |} in
  let st' := {| world := w1; trace := (tr ++ [EvListKeys "classroom-"])%list |} in
  (format = "plain" ->
   ListClassrooms c format st = ((Go.Join names Go.newline, None), st'))
  /\ (format = "json" -> keys <> None ->
      ListClassrooms c format st
      = ((Go.render 0 (Go.JArray (map Go.JString names)), None), st'))
  /\ (format = "json" -> keys = None ->
      ListClassrooms c format st = (("null", None), st'))
  /\ (format <> "json" -> format <> "plain" ->
      ListClassrooms c format st
      = (("", Some "expected format to be either 'json' or 'plain'"), st')).
Proof.
  intros Hlisted names st st'. subst names st st'.
  rewrite (ListClassrooms_rendered c format w w1 tr keys Hlisted).
  split; [ | split; [ | split ] ].
  - intros ->. reflexivity.
  - intros -> Hkeys. destruct keys as [l|]; [ reflexivity | contradiction Hkeys; reflexivity ].
  - intros -> ->. reflexivity.
  - intros Hj Hp.
    rewrite bool_decide_eq_false_2 by exact Hj.
    rewrite bool_decide_eq_false_2 by exact Hp. reflexivity.
Qed.

Lemma ListClassrooms_strips_and_renders_witness :
  ListClassrooms (fake.controller fake.all_ok) "plain" fake.start
  = (("a" +:+ Go.newline +:+ "b", None),
     {| world := 1%nat; trace := ([] ++ [EvListKeys "classroom-"])%list |})
  /\ ListClassrooms (fake.controller fake.all_ok) "json" fake.start
     = ((Go.render 0 (Go.JArray [Go.JString "a"; Go.JString "b"]), None),
        {| world := 1%nat; trace := ([] ++ [EvListKeys "classroom-"])%list |}).
Proof.
  split.
  - apply (ListClassrooms_strips_and_renders (fake.controller fake.all_ok) "plain"
             0%nat 1%nat [] (Some ["classroom-a"; "classroom-b"])).
    + reflexivity.
    + reflexivity.
  - apply (ListClassrooms_strips_and_renders (fake.controller fake.all_ok) "json"
             0%nat 1%nat [] (Some ["classroom-a"; "classroom-b"])).
    + reflexivity.
    + reflexivity.
    + discriminate.
Defined.

(** C6 as the specification words it fails for a nil slice: [ListKeys] answers
    without names and without an error, and the ["json"] output is
    [null], where the JSON array of the (zero) stripped names is [[]]. *)
Lemma ListClassrooms_nil_slice_renders_null :
  ListKeys (AWSClient (fake.controller fake.no_keys)) "classroom-" 0%nat
  = ((None, None), 1%nat)
  /\ ListClassrooms (fake.controller fake.no_keys) "json" fake.start
     = (("null", None), {| world := 1%nat; trace := [EvListKeys "classroom-"] |})
  /\ Go.render 0
       (Go.JArray (map Go.JString
                       (map (fun k => Go.TrimPrefix k "classroom-") (Go.elements None))))
     = "[]"
  /\ (ListClassrooms (fake.controller fake.no_keys) "json" fake.start).1.1
     <> Go.render 0
          (Go.JArray (map Go.JString
                          (map (fun k => Go.TrimPrefix k "classroom-") (Go.elements None)))).
Proof.
  split; [ reflexivity | ]. split; [ reflexivity | ]. split; [ reflexivity | ].
  discriminate.
Qed.

(** *** Where names are validated *)

Lemma DestroyClassroom_first_call {W} (c : Controller W) name (st : State W) :
  exists new rest,
    trace (DestroyClassroom c name st).2 = (trace st ++ new)%list
    /\ adapter_calls new = EvDeleteStack ("classroom-" +:+ name) :: rest.
Proof.
  run_workflow.
  destruct (DeleteStack (AWSClient c) ("classroom-" +:+ name) (world st))
    as [[e|] w1]; simpl.
  { eexists _, _. split; [ rewrite <- ?app_assoc; reflexivity | reflexivity ]. }
  destruct (DeleteKey (AWSClient c) ("classroom-" +:+ name) w1) as [[e|] w2]; simpl.
  { eexists _, _. split; [ rewrite <- ?app_assoc; reflexivity | reflexivity ]. }
  destruct (DeleteObject (AWSClient c) ("keys/" +:+ "classroom-" +:+ name) w2)
    as [err w3]; simpl.
  eexists _, _. split; [ rewrite <- ?app_assoc; reflexivity | reflexivity ].
Qed.

Lemma DescribeClassroom_first_call {W} range (c : Controller W) name format
  (st : State W) :
  exists new rest,
    trace (DescribeClassroom range c name format st).2 = (trace st ++ new)%list
    /\ adapter_calls new = EvDescribeStack ("classroom-" +:+ name) :: rest.
Proof.
  run_workflow.
  destruct (DescribeStack (AWSClient c) ("classroom-" +:+ name) (world st))
    as [[[[status stackID] parameters] [e|]] w1]; simpl.
  { eexists _, _. split; [ rewrite <- ?app_assoc; reflexivity | reflexivity ]. }
  destruct (Go.Atoi (Go.index parameters "InstanceCount")) as [number [e|]]; simpl.
  { eexists _, _. split; [ rewrite <- ?app_assoc; reflexivity | reflexivity ]. }
  destruct (GetHostsFromStackID (AWSClient c) stackID w1) as [[hosts [e|]] w2]; simpl.
  { eexists _, _. split; [ rewrite <- ?app_assoc; reflexivity | reflexivity ]. }
  destruct (bool_decide (format = "json")); simpl.
  { eexists _, _. split; [ rewrite <- ?app_assoc; reflexivity | reflexivity ]. }
  destruct (bool_decide (format = "plain")); simpl;
    eexists _, _; (split; [ rewrite <- ?app_assoc; reflexivity | reflexivity ]).
Qed.

(** C8, as the program has it. Only [CreateClassroom] validates the
    environment name, and it does so before any call. [DestroyClassroom]
    and [DescribeClassroom] take every name, matching the pattern or
    not: their first adapter call, [DeleteStack] and [DescribeStack] of
    ["classroom-" + name], is always made. *)
Theorem only_CreateClassroom_validates_name
  {W} (range : gmap string string -> list (string * string))
  (c : Controller W) (name format : string) (number : Z) (st : State W) :
  (Go.MatchString name = false ->
   CreateClassroom c name number st
   = (Some "invalid name: must match pattern ^[a-zA-Z][-a-zA-Z0-9]*$", st))
  /\ (exists new rest,
         trace (DestroyClassroom c name st).2 = (trace st ++ new)%list
         /\ adapter_calls new = EvDeleteStack ("classroom-" +:+ name) :: rest)
  /\ (exists new rest,
         trace (DescribeClassroom range c name format st).2 = (trace st ++ new)%list
         /\ adapter_calls new = EvDescribeStack ("classroom-" +:+ name) :: rest).
Proof.
  split; [ apply CreateClassroom_invalid | ].
  split; [ apply DestroyClassroom_first_call | apply DescribeClassroom_first_call ].
Qed.

Lemma only_CreateClassroom_validates_name_witness :
  CreateClassroom (fake.controller fake.all_ok) "bad name" 3 fake.start
  = (Some "invalid name: must match pattern ^[a-zA-Z][-a-zA-Z0-9]*$", fake.start).
Proof.
  apply (proj1 (only_CreateClassroom_validates_name map_to_list
                  (fake.controller fake.all_ok) "bad name" "json" 3 fake.start)).
  reflexivity.
Defined.

(** C8 as the specification words it fails for [DestroyClassroom] and
    [DescribeClassroom]: the name ["1bad"] does not match the pattern,
    yet both workflows run to the end without an error, having made all
    their adapter calls. *)
Lemma Destroy_and_Describe_run_on_invalid_name :
  Go.MatchString "1bad" = false
  /\ DestroyClassroom (fake.controller fake.all_ok) "1bad" fake.start
     = (None,
        {| world := 3%nat;
           trace := [EvPrintln 0 "Deleting CloudFormation stack %s" ["classroom-1bad"];
                     EvDeleteStack "classroom-1bad";
                     EvPrintln 0 "Deleting classroom keypair..." [];
                     EvDeleteKey "classroom-1bad";
                     EvPrintln 0 "Deleting private key from S3..." [];
                     EvDeleteObject "keys/classroom-1bad"] |})
  /\ (DescribeClassroom map_to_list (fake.controller fake.all_ok) "1bad" "plain"
                        fake.start).1.2 = None
  /\ trace (DescribeClassroom map_to_list (fake.controller fake.all_ok) "1bad" "plain"
                              fake.start).2
     = [EvDescribeStack "classroom-1bad";
        EvURLForObject "keys/classroom-1bad";
        EvGetHostsFromStackID "stack-id"].
Proof. repeat split; reflexivity. Qed.

(** ** Further properties of the adapter and of the workflows *)

(** *** The key-pair adapter, read backwards *)

Lemma CreateKey_cases {W} (cl : aws.Client W) (name : string) (w : W) :
  let answer :=
    ec2.CreateKeyPair (aws.EC2 cl) {| ec2.CreateKeyPairInput.KeyName := Some name |} w in
  (exists e, aws.CreateKey cl name w = (("", Some e), answer.2))
  \/ (exists material,
         aws.CreateKey cl name w = ((material, None), answer.2)
         /\ material <> ""
         /\ answer.1.2 = None
         /\ ec2.CreateKeyPairOutput.KeyName answer.1.1 = Some name
         /\ ec2.CreateKeyPairOutput.KeyMaterial answer.1.1 = Some material).
Proof.
  intros answer. subst answer. unfold aws.CreateKey, aws.String.
  destruct (ec2.CreateKeyPair (aws.EC2 cl)
              {| ec2.CreateKeyPairInput.KeyName := Some name |} w)
    as [[out [e|]] w1]; simpl.
  { left. eexists. reflexivity. }
  destruct (ec2.CreateKeyPairOutput.KeyName out) as [got|] eqn:Hname.
  2:{ left. eexists. reflexivity. }
  destruct (decide (got = name)) as [-> | Hne].
  2:{ rewrite bool_decide_eq_false_2 by exact Hne. left. eexists. reflexivity. }
  rewrite bool_decide_eq_true_2 by reflexivity. simpl.
  destruct (ec2.CreateKeyPairOutput.KeyMaterial out) as [material|] eqn:Hmat.
  2:{ left. eexists. reflexivity. }
  destruct (decide (material = "")) as [-> | Hne].
  { left. eexists. reflexivity. }
  rewrite bool_decide_eq_false_2 by exact Hne.
  right. exists material. repeat split; assumption || reflexivity.
Qed.

(** X1. A [CreateKey] that reports no error returns a key that is not
    empty, and it does so only when the provider answered without an
    error, named the key pair exactly as requested and sent that very
    key as its material. *)
Theorem CreateKey_success_means_checked_answer
  {W} (cl : aws.Client W) (name material : string) (w w' : W) :
  aws.CreateKey cl name w = ((material, None), w') ->
  material <> ""
  /\ exists out,
      ec2.CreateKeyPair (aws.EC2 cl) {| ec2.CreateKeyPairInput.KeyName := Some name |} w
      = ((out, None), w')
      /\ ec2.CreateKeyPairOutput.KeyName out = Some name
      /\ ec2.CreateKeyPairOutput.KeyMaterial out = Some material.
Proof.
  intros H. pose proof (CreateKey_cases cl name w) as Hcases. simpl in Hcases.
  destruct Hcases as [[e He] | (m & Hm & Hne & Herr & Hname & Hmat)].
  - rewrite He in H. discriminate H.
  - rewrite Hm in H. injection H as <- <-.
    split; [ exact Hne | ].
    destruct (ec2.CreateKeyPair (aws.EC2 cl)
                {| ec2.CreateKeyPairInput.KeyName := Some name |} w)
      as [[out err] w1]; simpl in *.
    exists out. rewrite Herr. repeat split; assumption.
Qed.

Lemma CreateKey_success_means_checked_answer_witness :
  "PEM" <> ""
  /\ exists out,
      ec2.CreateKeyPair
        (aws.EC2 {| aws.EC2 := fake.ec2_api (fake.key_pair (Some "classroom-demo") (Some "PEM")) None |})
        {| ec2.CreateKeyPairInput.KeyName := Some "classroom-demo" |} 0%nat
      = ((out, None), 1%nat)
      /\ ec2.CreateKeyPairOutput.KeyName out = Some "classroom-demo"
      /\ ec2.CreateKeyPairOutput.KeyMaterial out = Some "PEM".
Proof.
  apply (CreateKey_success_means_checked_answer
           {| aws.EC2 := fake.ec2_api (fake.key_pair (Some "classroom-demo") (Some "PEM")) None |}
           "classroom-demo" "PEM" 0%nat 1%nat).
  reflexivity.
Defined.

(** X2. [CreateKey] never hands back a key together with an error: with
    every error the returned string is empty; and an error of the
    provider is passed on unchanged, whatever output comes with it. *)
Theorem CreateKey_error_carries_no_key
  {W} (cl : aws.Client W) (name : string) (w : W) :
  (forall e, (aws.CreateKey cl name w).1.2 = Some e -> (aws.CreateKey cl name w).1.1 = "")
  /\ (forall out e w',
         ec2.CreateKeyPair (aws.EC2 cl) {| ec2.CreateKeyPairInput.KeyName := Some name |} w
         = ((out, Some e), w') ->
         aws.CreateKey cl name w = (("", Some e), w')).
Proof.
  split.
  - intros e He. pose proof (CreateKey_cases cl name w) as Hcases. simpl in Hcases.
    destruct Hcases as [[e' He'] | (m & Hm & _)].
    + rewrite He'. reflexivity.
    + rewrite Hm in He. discriminate He.
  - intros out e w' H. unfold aws.CreateKey, aws.String. rewrite H. reflexivity.
Qed.

Lemma CreateKey_error_carries_no_key_witness :
  aws.CreateKey
    {| aws.EC2 := fake.ec2_api (fake.key_pair (Some "classroom-demo") (Some "PEM"))
                               (Some "UnauthorizedOperation") |}
    "classroom-demo" 0%nat
  = (("", Some "UnauthorizedOperation"), 1%nat).
Proof.
  apply (proj2 (CreateKey_error_carries_no_key
                  {| aws.EC2 := fake.ec2_api (fake.key_pair (Some "classroom-demo") (Some "PEM"))
                                             (Some "UnauthorizedOperation") |}
                  "classroom-demo" 0%nat)
               (fake.key_pair (Some "classroom-demo") (Some "PEM"))
               "UnauthorizedOperation" 1%nat).
  reflexivity.
Defined.

(** *** Traces *)

Lemma new_events_appended {W A} (m : M W A) (st : State W) (new : list Event) :
  trace (m st).2 = (trace st ++ new)%list -> new_events m st = new.
Proof. intros H. unfold new_events. rewrite H. apply drop_app_length. Qed.

(** Reads the events a run has added off a trace built by successive
    calls. *)
Ltac read_new_events :=
  erewrite new_events_appended by (simpl; rewrite <- ?app_assoc; reflexivity); simpl.

(** Splits a run of [CreateClassroom] into its six ways through the code:
    image lookup failed, key creation failed, upload failed, stack
    creation reached, region missing, name invalid. *)
Ltac create_paths c name st :=
  unfold operations;
  unfold CreateClassroom;
  destruct (Go.MatchString name) eqn:Hvalid; simpl;
  [ run_workflow;
    destruct (GetLatestAMIs (AtlasClient c) (VagrantBoxName c) (world st))
      as [[amiMap [e|]] w1] eqn:Hlookup; simpl;
    [ | destruct (Go.index2 amiMap (Region c)) as [ami [|]] eqn:Hregion; simpl;
        [ destruct (CreateKey (AWSClient c) ("classroom-" +:+ name) w1)
            as [[pem [e|]] w2] eqn:Hkey; simpl;
          [ | match goal with
              | |- context [StoreObject ?a ?n ?b ?d ?t ?w] =>
                  destruct (StoreObject a n b d t w) as [[e|] w3] eqn:Hstore; simpl
              end;
              [ | match goal with
                  | |- context [CreateStack ?a ?n ?t ?p ?w] =>
                      destruct (CreateStack a n t p w) as [[id err] w4] eqn:Hstack; simpl
                  end ] ]
        | ] ]
  | ].

Lemma CreateClassroom_operations_cases {W} (c : Controller W) name number (st : State W) :
  let r := CreateClassroom c name number st in
  let ops := operations (CreateClassroom c name number) st in
  (Go.MatchString name = false /\ ops = [] /\ is_Some r.1)
  \/ (Go.MatchString name = true /\ ops = take 1 create_sequence /\ is_Some r.1)
  \/ (Go.MatchString name = true /\ ops = take 2 create_sequence /\ is_Some r.1)
  \/ (Go.MatchString name = true /\ ops = take 4 create_sequence /\ is_Some r.1)
  \/ (Go.MatchString name = true /\ ops = create_sequence).
Proof.
  intros r ops. subst r ops. unfold operations, new_events.
  create_paths c name st.
  - right. left. split; [ reflexivity | ].
    rewrite <- ?app_assoc, drop_app_length. split; [ reflexivity | eexists; reflexivity ].
  - right. right. left. split; [ reflexivity | ].
    rewrite <- ?app_assoc, drop_app_length. split; [ reflexivity | eexists; reflexivity ].
  - right. right. right. left. split; [ reflexivity | ].
    rewrite <- ?app_assoc, drop_app_length. split; [ reflexivity | eexists; reflexivity ].
  - right. right. right. right. split; [ reflexivity | ].
    rewrite <- ?app_assoc, drop_app_length. reflexivity.
  - right. left. split; [ reflexivity | ].
    rewrite <- ?app_assoc, drop_app_length. split; [ reflexivity | eexists; reflexivity ].
  - left. split; [ reflexivity | ].
    rewrite drop_all. split; [ reflexivity | eexists; reflexivity ].
Qed.

Lemma DestroyClassroom_operations_cases {W} (c : Controller W) name (st : State W) :
  let r := DestroyClassroom c name st in
  let ops := operations (DestroyClassroom c name) st in
  (ops = take 1 destroy_sequence /\ is_Some r.1)
  \/ (ops = take 2 destroy_sequence /\ is_Some r.1)
  \/ ops = destroy_sequence.
Proof.
  intros r ops. subst r ops. unfold operations, new_events. run_workflow.
  destruct (DeleteStack (AWSClient c) ("classroom-" +:+ name) (world st))
    as [[e|] w1]; simpl.
  { left. rewrite <- ?app_assoc, drop_app_length.
    split; [ reflexivity | eexists; reflexivity ]. }
  destruct (DeleteKey (AWSClient c) ("classroom-" +:+ name) w1) as [[e|] w2]; simpl.
  { right. left. rewrite <- ?app_assoc, drop_app_length.
    split; [ reflexivity | eexists; reflexivity ]. }
  destruct (DeleteObject (AWSClient c) ("keys/" +:+ "classroom-" +:+ name) w2)
    as [err w3]; simpl.
  right. right. rewrite <- ?app_assoc, drop_app_length. reflexivity.
Qed.

Lemma DescribeClassroom_operations_cases {W} range (c : Controller W) name format
  (st : State W) :
  let r := DescribeClassroom range c name format st in
  let ops := operations (DescribeClassroom range c name format) st in
  (ops = take 1 describe_sequence /\ is_Some r.1.2 /\ r.1.1 = "")
  \/ (ops = take 2 describe_sequence /\ is_Some r.1.2 /\ r.1.1 = "")
  \/ (ops = describe_sequence /\ is_Some r.1.2 /\ r.1.1 = "")
  \/ (ops = describe_sequence /\ r.1.2 = None).
Proof.
  intros r ops. subst r ops. unfold operations, new_events. run_workflow.
  destruct (DescribeStack (AWSClient c) ("classroom-" +:+ name) (world st))
    as [[[[status stackID] parameters] [e|]] w1]; simpl.
  { left. rewrite <- ?app_assoc, drop_app_length.
    split; [ reflexivity | split; [ eexists; reflexivity | reflexivity ] ]. }
  destruct (Go.Atoi (Go.index parameters "InstanceCount")) as [number [e|]]; simpl.
  { right. left. rewrite <- ?app_assoc, drop_app_length.
    split; [ reflexivity | split; [ eexists; reflexivity | reflexivity ] ]. }
  destruct (GetHostsFromStackID (AWSClient c) stackID w1) as [[hosts [e|]] w2]; simpl.
  { right. right. left. rewrite <- ?app_assoc, drop_app_length.
    split; [ reflexivity | split; [ eexists; reflexivity | reflexivity ] ]. }
  destruct (bool_decide (format = "json")); simpl.
  { right. right. right. rewrite <- ?app_assoc, drop_app_length.
    split; reflexivity. }
  destruct (bool_decide (format = "plain")); simpl.
  { right. right. right. rewrite <- ?app_assoc, drop_app_length.
    split; reflexivity. }
  right. right. left. rewrite <- ?app_assoc, drop_app_length.
  split; [ reflexivity | split; [ eexists; reflexivity | reflexivity ] ].
Qed.

Lemma ListClassrooms_operations_cases {W} (c : Controller W) format (st : State W) :
  let r := ListClassrooms c format st in
  operations (ListClassrooms c format) st = ["ListKeys"]
  /\ (r.1.2 = None \/ (is_Some r.1.2 /\ r.1.1 = "")).
Proof.
  intros r. subst r. unfold operations, new_events. run_workflow.
  destruct (ListKeys (AWSClient c) "classroom-" (world st)) as [[keys [e|]] w1]; simpl.
  { rewrite drop_app_length. split; [ reflexivity | ].
    right. split; [ eexists; reflexivity | reflexivity ]. }
  destruct (bool_decide (format = "json")); simpl.
  { rewrite drop_app_length. split; [ reflexivity | left; reflexivity ]. }
  destruct (bool_decide (format = "plain")); simpl.
  { rewrite drop_app_length. split; [ reflexivity | left; reflexivity ]. }
  rewrite drop_app_length. split; [ reflexivity | ].
  right. split; [ eexists; reflexivity | reflexivity ].
Qed.

(** *** The order of the calls *)

(** X3. Whatever the collaborators answer, the adapter methods a workflow
    calls are an initial stretch of its fixed sequence: [CreateClassroom]
    never calls a deletion, [DestroyClassroom] never creates,
    [DescribeClassroom] only reads, and [ListClassrooms] makes the one
    call [ListKeys] for every format, supported or not. *)
Theorem workflows_call_in_fixed_order
  {W} (range : gmap string string -> list (string * string))
  (c : Controller W) (name format : string) (number : Z) (st : State W) :
  (exists k, operations (CreateClassroom c name number) st = take k create_sequence)
  /\ (exists k, operations (DestroyClassroom c name) st = take k destroy_sequence)
  /\ (exists k, operations (DescribeClassroom range c name format) st
                = take k describe_sequence)
  /\ operations (ListClassrooms c format) st = ["ListKeys"].
Proof.
  split; [ | split; [ | split ] ].
  - destruct (CreateClassroom_operations_cases c name number st)
      as [(_ & H & _) | [(_ & H & _) | [(_ & H & _) | [(_ & H & _) | (_ & H)]]]].
    + exists 0%nat. exact H.
    + exists 1%nat. exact H.
    + exists 2%nat. exact H.
    + exists 4%nat. exact H.
    + exists 5%nat. exact H.
  - destruct (DestroyClassroom_operations_cases c name st) as [(H & _) | [(H & _) | H]].
    + exists 1%nat. exact H.
    + exists 2%nat. exact H.
    + exists 3%nat. exact H.
  - destruct (DescribeClassroom_operations_cases range c name format st)
      as [(H & _) | [(H & _) | [(H & _) | (H & _)]]].
    + exists 1%nat. exact H.
    + exists 2%nat. exact H.
    + exists 3%nat. exact H.
    + exists 3%nat. exact H.
  - apply (ListClassrooms_operations_cases c format st).
Qed.

(** X4. A workflow that reports no error has run all of its steps:
    [CreateClassroom] only for a name that matches the pattern and after
    all five calls up to [CreateStack], [DestroyClassroom] after all
    three deletions, [DescribeClassroom] after the stack, the URL and the
    hosts have been read. *)
Theorem success_means_every_step_ran
  {W} (range : gmap string string -> list (string * string))
  (c : Controller W) (name format : string) (number : Z) (st : State W) :
  ((CreateClassroom c name number st).1 = None ->
   Go.MatchString name = true
   /\ operations (CreateClassroom c name number) st = create_sequence)
  /\ ((DestroyClassroom c name st).1 = None ->
      operations (DestroyClassroom c name) st = destroy_sequence)
  /\ ((DescribeClassroom range c name format st).1.2 = None ->
      operations (DescribeClassroom range c name format) st = describe_sequence).
Proof.
  split; [ | split ].
  - intros Hok.
    destruct (CreateClassroom_operations_cases c name number st)
      as [(_ & _ & [e He]) | [(_ & _ & [e He]) | [(_ & _ & [e He])
          | [(_ & _ & [e He]) | H]]]];
      try (rewrite He in Hok; discriminate Hok).
    exact H.
  - intros Hok.
    destruct (DestroyClassroom_operations_cases c name st)
      as [(_ & [e He]) | [(_ & [e He]) | H]];
      try (rewrite He in Hok; discriminate Hok).
    exact H.
  - intros Hok.
    destruct (DescribeClassroom_operations_cases range c name format st)
      as [(_ & [e He] & _) | [(_ & [e He] & _) | [(_ & [e He] & _) | (H & _)]]];
      try (rewrite He in Hok; discriminate Hok).
    exact H.
Qed.

Lemma success_means_every_step_ran_witness :
  Go.MatchString "demo" = true
  /\ operations (CreateClassroom (fake.controller fake.all_ok) "demo" 3) fake.start
     = create_sequence.
Proof.
  apply (proj1 (success_means_every_step_ran map_to_list (fake.controller fake.all_ok)
                  "demo" "json" 3 fake.start)).
  reflexivity.
Defined.

(** X5. Whenever [ListClassrooms] or [DescribeClassroom] reports an
    error, on any path and for any format, the text it returns with the
    error is empty. *)
Theorem error_comes_with_empty_output
  {W} (range : gmap string string -> list (string * string))
  (c : Controller W) (name format : string) (st : State W) :
  (forall e, (ListClassrooms c format st).1.2 = Some e ->
             (ListClassrooms c format st).1.1 = "")
  /\ (forall e, (DescribeClassroom range c name format st).1.2 = Some e ->
                (DescribeClassroom range c name format st).1.1 = "").
Proof.
  split.
  - intros e He.
    destruct (ListClassrooms_operations_cases c format st) as [_ [Hok | [_ Hempty]]].
    + simpl in Hok. rewrite Hok in He. discriminate He.
    + exact Hempty.
  - intros e He.
    destruct (DescribeClassroom_operations_cases range c name format st)
      as [(_ & _ & H) | [(_ & _ & H) | [(_ & _ & H) | (_ & Hok)]]];
      try exact H.
    simpl in Hok. rewrite Hok in He. discriminate He.
Qed.

Lemma error_comes_with_empty_output_witness :
  (DescribeClassroom map_to_list
     (fake.controller (fake.with_parameters (Some {[ "InstanceCount" := "abc" ]})))
     "demo" "json" fake.start).1.1 = "".
Proof.
  apply (proj2 (error_comes_with_empty_output map_to_list
                  (fake.controller (fake.with_parameters (Some {[ "InstanceCount" := "abc" ]})))
                  "demo" "json" fake.start)
               "malformed CloudFormation stack: missing or invalid parameter 'InstanceCount'").
  vm_compute. reflexivity.
Defined.

(** *** What is made and what is removed *)

Lemma CreateClassroom_success_creates {W} (c : Controller W) name number (st : State W) :
  (CreateClassroom c name number st).1 = None ->
  omap created (new_events (CreateClassroom c name number) st)
  = [KeyPair ("classroom-" +:+ name);
     StoredObject ("keys/" +:+ "classroom-" +:+ name);
     Stack ("classroom-" +:+ name)].
Proof.
  unfold new_events. create_paths c name st; intros Hok; try discriminate Hok.
  rewrite <- ?app_assoc, drop_app_length. reflexivity.
Qed.

Lemma DestroyClassroom_success_deletes {W} (c : Controller W) name (st : State W) :
  (DestroyClassroom c name st).1 = None ->
  omap deleted (new_events (DestroyClassroom c name) st)
  = [Stack ("classroom-" +:+ name);
     KeyPair ("classroom-" +:+ name);
     StoredObject ("keys/" +:+ "classroom-" +:+ name)].
Proof.
  unfold new_events. run_workflow.
  destruct (DeleteStack (AWSClient c) ("classroom-" +:+ name) (world st))
    as [[e|] w1]; simpl; [ discriminate | ].
  destruct (DeleteKey (AWSClient c) ("classroom-" +:+ name) w1)
    as [[e|] w2]; simpl; [ discriminate | ].
  destruct (DeleteObject (AWSClient c) ("keys/" +:+ "classroom-" +:+ name) w2)
    as [err w3]; simpl.
  intros _. rewrite <- ?app_assoc, drop_app_length. reflexivity.
Qed.

(** X6. A [DestroyClassroom] that succeeds removes exactly the resources
    a successful [CreateClassroom] of the same name has made: the key
    pair, the stored key object and the stack, each once. The stack goes
    first, then the key pair and the object, which is not the reverse
    of the order of creation. *)
Theorem Destroy_removes_what_Create_made
  {W W'} (c : Controller W) (c' : Controller W') (name : string) (number : Z)
  (st : State W) (st' : State W') :
  (CreateClassroom c name number st).1 = None ->
  (DestroyClassroom c' name st').1 = None ->
  omap deleted (new_events (DestroyClassroom c' name) st')
  ≡ₚ omap created (new_events (CreateClassroom c name number) st)
  /\ omap deleted (new_events (DestroyClassroom c' name) st')
     <> reverse (omap created (new_events (CreateClassroom c name number) st)).
Proof.
  intros Hcreate Hdestroy.
  rewrite (CreateClassroom_success_creates c name number st Hcreate).
  rewrite (DestroyClassroom_success_deletes c' name st' Hdestroy).
  split.
  - apply (Permutation_cons_append
             [KeyPair ("classroom-" +:+ name);
              StoredObject ("keys/" +:+ "classroom-" +:+ name)]
             (Stack ("classroom-" +:+ name))).
  - discriminate.
Qed.

Lemma Destroy_removes_what_Create_made_witness :
  omap deleted (new_events (DestroyClassroom (fake.controller fake.all_ok) "demo")
                           fake.start)
  ≡ₚ omap created (new_events (CreateClassroom (fake.controller fake.all_ok) "demo" 3)
                              fake.start)
  /\ omap deleted (new_events (DestroyClassroom (fake.controller fake.all_ok) "demo")
                              fake.start)
     <> reverse (omap created
                   (new_events (CreateClassroom (fake.controller fake.all_ok) "demo" 3)
                               fake.start)).
Proof.
  apply (Destroy_removes_what_Create_made
           (fake.controller fake.all_ok) (fake.controller fake.all_ok) "demo" 3
           fake.start fake.start).
  - reflexivity.
  - reflexivity.
Defined.

(** *** Failures while creating *)

(** X7. When the image lookup reports an error, [CreateClassroom] returns
    that error unchanged and stops: the mapping that came with the error
    is not consulted, even if it holds the region, and nothing has been
    created. *)
Theorem CreateClassroom_image_lookup_error
  {W} (c : Controller W) (name : string) (number : Z) (w w1 : W)
  (tr : list Event) (amiMap : Go.strmap) (e : Go.error) :
  Go.MatchString name = true ->
  GetLatestAMIs (AtlasClient c) (VagrantBoxName c) w = ((amiMap, Some e), w1) ->
  CreateClassroom c name number {| world := w; trace := tr |}
  = (Some e,
     {| world := w1;
        trace := (tr ++ [EvPrintln 0 "Looking up latest AMI for %s"
                                   [Green (Log c) "%s" [VagrantBoxName c]];
                         EvGetLatestAMIs (VagrantBoxName c)])%list |}).
Proof.
  intros Hvalid Hlookup. run_workflow. rewrite Hvalid. simpl. rewrite Hlookup. simpl.
  rewrite <- app_assoc. reflexivity.
Qed.

Lemma CreateClassroom_image_lookup_error_witness :
  CreateClassroom (fake.controller scenario.lookup_fails) "demo" 3 fake.start
  = (Some "atlas unreachable",
     {| world := 1%nat;
        trace := ([] ++ [EvPrintln 0 "Looking up latest AMI for %s" ["bosh-lite"];
                         EvGetLatestAMIs "bosh-lite"])%list |}).
Proof.
  apply (CreateClassroom_image_lookup_error (fake.controller scenario.lookup_fails)
           "demo" 3 0%nat 1%nat [] (Some {[ "us-west-2" := "ami-1234" ]})
           "atlas unreachable").
  - reflexivity.
  - reflexivity.
Defined.

(** X8. When the upload of the private key fails, [CreateClassroom]
    returns that error, does not create the stack, and does not take the
    key pair back: the calls made are the image lookup, [CreateKey],
    [URLForObject] and [StoreObject], with no [DeleteKey] after them. *)
Theorem CreateClassroom_upload_error_keeps_key
  {W} (c : Controller W) (name : string) (number : Z) (w w1 w2 w3 : W)
  (tr : list Event) (t : gmap string string) (ami pem : string) (e : Go.error) :
  let p := "classroom-" +:+ name in
  Go.MatchString name = true ->
  GetLatestAMIs (AtlasClient c) (VagrantBoxName c) w = ((Some t, None), w1) ->
  t !! Region c = Some ami ->
  CreateKey (AWSClient c) p w1 = ((pem, None), w2) ->
  StoreObject (AWSClient c) ("keys/" +:+ p) pem
              "bosh101_ssh_key.pem" "application/x-pem-file" w2 = (Some e, w3) ->
  exists new,
    CreateClassroom c name number {| world := w; trace := tr |}
    = (Some e, {| world := w3; trace := (tr ++ new)%list |})
    /\ adapter_calls new
       = [EvGetLatestAMIs (VagrantBoxName c);
          EvCreateKey p;
          EvURLForObject ("keys/" +:+ p);
          EvStoreObject ("keys/" +:+ p) pem "bosh101_ssh_key.pem" "application/x-pem-file"]
    /\ omap deleted new = [].
Proof.
  intros p Hvalid Hlookup Hregion Hkey Hstore. eexists. run_workflow.
  rewrite Hvalid. simpl. rewrite Hlookup. simpl. rewrite Hregion. simpl.
  fold p. rewrite Hkey. simpl. rewrite Hstore. simpl.
  split; [ rewrite <- ?app_assoc; reflexivity | ].
  split; reflexivity.
Qed.

Lemma CreateClassroom_upload_error_keeps_key_witness :
  exists new,
    CreateClassroom (fake.controller scenario.upload_fails) "demo" 3 fake.start
    = (Some "access denied", {| world := 3%nat; trace := ([] ++ new)%list |})
    /\ adapter_calls new
       = [EvGetLatestAMIs "bosh-lite";
          EvCreateKey "classroom-demo";
          EvURLForObject "keys/classroom-demo";
          EvStoreObject "keys/classroom-demo" "PEM" "bosh101_ssh_key.pem"
                        "application/x-pem-file"]
    /\ omap deleted new = [].
Proof.
  apply (CreateClassroom_upload_error_keeps_key (fake.controller scenario.upload_fails)
           "demo" 3 0%nat 1%nat 2%nat 3%nat [] {[ "us-west-2" := "ami-1234" ]}
           "ami-1234" "PEM" "access denied").
  - reflexivity.
  - reflexivity.
  - vm_compute. reflexivity.
  - reflexivity.
  - reflexivity.
Defined.

(** *** The controller over the adapter of [proctor/aws] *)

(** X9. With the adapter's [CreateKey] behind the controller, the key
    pair is requested from EC2 under ["classroom-" + name], and what
    [CreateClassroom] uploads to ["keys/classroom-" + name] is exactly
    the key material of the provider's answer, as a PEM file named
    [bosh101_ssh_key.pem]. *)
Theorem CreateClassroom_uploads_provider_key
  {W} (c : Controller W) (cl : aws.Client W) (name : string) (number : Z)
  (w w1 w2 : W) (tr : list Event) (t : gmap string string) (ami pem : string)
  (out : ec2.CreateKeyPairOutput.t) :
  let p := "classroom-" +:+ name in
  (forall n v, CreateKey (AWSClient c) n v = aws.CreateKey cl n v) ->
  Go.MatchString name = true ->
  GetLatestAMIs (AtlasClient c) (VagrantBoxName c) w = ((Some t, None), w1) ->
  t !! Region c = Some ami ->
  ec2.CreateKeyPair (aws.EC2 cl) {| ec2.CreateKeyPairInput.KeyName := Some p |} w1
  = ((out, None), w2) ->
  ec2.CreateKeyPairOutput.KeyName out = Some p ->
  ec2.CreateKeyPairOutput.KeyMaterial out = Some pem ->
  pem <> "" ->
  EvStoreObject ("keys/" +:+ p) pem "bosh101_ssh_key.pem" "application/x-pem-file"
  ∈ new_events (CreateClassroom c name number) {| world := w; trace := tr |}.
Proof.
  intros p Hwire Hvalid Hlookup Hregion Hanswer Hname Hmat Hne.
  pose proof (CreateKey_material cl p w1 w2 out Hanswer pem Hname Hmat Hne) as Hkey.
  rewrite <- Hwire in Hkey.
  unfold new_events. run_workflow.
  rewrite Hvalid. simpl. rewrite Hlookup. simpl. rewrite Hregion. simpl.
  fold p. rewrite Hkey. simpl.
  destruct (StoreObject (AWSClient c) ("keys/" +:+ p) pem
              "bosh101_ssh_key.pem" "application/x-pem-file" w2) as [[e|] w3]; simpl.
  - rewrite <- ?app_assoc, drop_app_length. set_solver.
  - match goal with
    | |- context [CreateStack ?a ?n ?tm ?ps ?v] =>
        destruct (CreateStack a n tm ps v) as [[id err] w4]; simpl
    end.
    rewrite <- ?app_assoc, drop_app_length. set_solver.
Qed.

Lemma CreateClassroom_uploads_provider_key_witness :
  EvStoreObject "keys/classroom-demo" "PEM" "bosh101_ssh_key.pem" "application/x-pem-file"
  ∈ new_events
      (CreateClassroom
         (fake.controller_over
            (fake.ec2_api (fake.key_pair (Some "classroom-demo") (Some "PEM")) None)
            fake.all_ok)
         "demo" 3)
      fake.start.
Proof.
  apply (CreateClassroom_uploads_provider_key
           (fake.controller_over
              (fake.ec2_api (fake.key_pair (Some "classroom-demo") (Some "PEM")) None)
              fake.all_ok)
           {| aws.EC2 := fake.ec2_api (fake.key_pair (Some "classroom-demo") (Some "PEM")) None |}
           "demo" 3 0%nat 1%nat 2%nat [] {[ "us-west-2" := "ami-1234" ]} "ami-1234" "PEM"
           (fake.key_pair (Some "classroom-demo") (Some "PEM"))).
  - intros n v. reflexivity.
  - reflexivity.
  - reflexivity.
  - vm_compute. reflexivity.
  - reflexivity.
  - reflexivity.
  - reflexivity.
  - discriminate.
Defined.

(** X10. With the adapter's [DeleteKey] behind the controller, the key
    pair is deleted at EC2 under ["classroom-" + name]; [DeleteKey] adds
    no check of its own, so an error of [DeleteKeyPair] is the result of
    [DestroyClassroom], which then leaves the stored key object alone,
    the stack being already deleted. *)
Theorem DestroyClassroom_key_pair_error
  {W} (c : Controller W) (cl : aws.Client W) (name : string) (w w1 w2 : W)
  (tr : list Event) (e : Go.error) :
  let p := "classroom-" +:+ name in
  (forall n v, DeleteKey (AWSClient c) n v = aws.DeleteKey cl n v) ->
  DeleteStack (AWSClient c) p w = (None, w1) ->
  ec2.DeleteKeyPair (aws.EC2 cl) {| ec2.DeleteKeyPairInput.KeyName := Some p |} w1
  = ((tt, Some e), w2) ->
  exists new,
    DestroyClassroom c name {| world := w; trace := tr |}
    = (Some e, {| world := w2; trace := (tr ++ new)%list |})
    /\ adapter_calls new = [EvDeleteStack p; EvDeleteKey p].
Proof.
  intros p Hwire Hstack Hpair. eexists. run_workflow. fold p.
  rewrite Hstack. simpl. rewrite Hwire. unfold aws.DeleteKey, aws.String.
  rewrite Hpair. simpl.
  split; [ rewrite <- ?app_assoc; reflexivity | reflexivity ].
Qed.

Lemma DestroyClassroom_key_pair_error_witness :
  exists new,
    DestroyClassroom
      (fake.controller_over (scenario.ec2_deleting (Some "InvalidKeyPair.NotFound"))
                            fake.all_ok)
      "demo" fake.start
    = (Some "InvalidKeyPair.NotFound", {| world := 2%nat; trace := ([] ++ new)%list |})
    /\ adapter_calls new = [EvDeleteStack "classroom-demo"; EvDeleteKey "classroom-demo"].
Proof.
  apply (DestroyClassroom_key_pair_error
           (fake.controller_over (scenario.ec2_deleting (Some "InvalidKeyPair.NotFound"))
                                 fake.all_ok)
           {| aws.EC2 := scenario.ec2_deleting (Some "InvalidKeyPair.NotFound") |}
           "demo" 0%nat 1%nat 2%nat [] "InvalidKeyPair.NotFound").
  - intros n v. reflexivity.
  - reflexivity.
  - reflexivity.
Defined.

(** *** Listing, once more *)

Lemma substring_all (s : string) : String.substring 0 (String.length s) s = s.
Proof. induction s as [|c s IH]; simpl; [ reflexivity | rewrite IH; reflexivity ]. Qed.

Lemma HasPrefix_append (pre s : string) : Go.HasPrefix (pre +:+ s) pre = true.
Proof.
  induction pre as [|c pre IH]; simpl; [ destruct s; reflexivity | ].
  rewrite bool_decide_eq_true_2 by reflexivity. exact IH.
Qed.

Lemma length_append (pre s : string) :
  String.length (pre +:+ s) = (String.length pre + String.length s)%nat.
Proof. induction pre as [|c pre IH]; simpl; [ reflexivity | rewrite IH; reflexivity ]. Qed.

Lemma substring_append (pre s : string) :
  String.substring (String.length pre) (String.length s) (pre +:+ s) = s.
Proof. induction pre as [|c pre IH]; simpl; [ apply substring_all | exact IH ]. Qed.

Lemma TrimPrefix_append (pre s : string) : Go.TrimPrefix (pre +:+ s) pre = s.
Proof.
  unfold Go.TrimPrefix. rewrite HasPrefix_append, length_append.
  replace (String.length pre + String.length s - String.length pre)%nat
    with (String.length s) by lia.
  apply substring_append.
Qed.

Lemma TrimPrefix_prefix_names (names : list string) :
  map (fun k => Go.TrimPrefix k "classroom-") (map prefix names) = names.
Proof.
  induction names as [|n names IH]; [ reflexivity | ].
  cbn [map]. rewrite IH. unfold prefix at 1. rewrite TrimPrefix_append. reflexivity.
Qed.

(** X11. [ListClassrooms] undoes the naming of [CreateClassroom]: when
    the key pairs listed are those of the classrooms [names], each under
    its prefixed name, the plain output is these names, one per line, as
    they were given to [CreateClassroom], and the JSON output is the
    array of them. *)
Theorem ListClassrooms_shows_names_as_created
  {W} (c : Controller W) (w w1 : W) (tr : list Event) (names : list string) :
  ListKeys (AWSClient c) "classroom-" w = ((Some (map prefix names), None), w1) ->
  let st := {| world := w; trace := tr |} in
  let st' := {| world := w1; trace := (tr ++ [EvListKeys "classroom-"])%list |} in
  ListClassrooms c "plain" st = ((Go.Join names Go.newline, None), st')
  /\ ListClassrooms c "json" st
     = ((Go.render 0 (Go.JArray (map Go.JString names)), None), st').
Proof.
  intros Hlisted st st'. subst st st'.
  rewrite !(ListClassrooms_rendered c _ w w1 tr (Some (map prefix names)) Hlisted).
  simpl. rewrite TrimPrefix_prefix_names. split; reflexivity.
Qed.

Lemma ListClassrooms_shows_names_as_created_witness :
  ListClassrooms (fake.controller (scenario.listing (Some (map prefix ["bosh-101"; "x"])) None))
                 "plain" fake.start
  = ((Go.Join ["bosh-101"; "x"] Go.newline, None),
     {| world := 1%nat; trace := ([] ++ [EvListKeys "classroom-"])%list |})
  /\ ListClassrooms (fake.controller (scenario.listing (Some (map prefix ["bosh-101"; "x"])) None))
                    "json" fake.start
     = ((Go.render 0 (Go.JArray (map Go.JString ["bosh-101"; "x"])), None),
        {| world := 1%nat; trace := ([] ++ [EvListKeys "classroom-"])%list |}).
Proof.
  apply (ListClassrooms_shows_names_as_created
           (fake.controller (scenario.listing (Some (map prefix ["bosh-101"; "x"])) None))
           0%nat 1%nat [] ["bosh-101"; "x"]).
  reflexivity.
Defined.

(** X12. When [ListKeys] reports an error, [ListClassrooms] returns it
    unchanged with an empty text for every format: the names that came
    with the error are dropped, and an unsupported format is not
    reported, the format being looked at only after the listing. *)
Theorem ListClassrooms_listing_error
  {W} (c : Controller W) (format : string) (w w1 : W) (tr : list Event)
  (keys : Go.strslice) (e : Go.error) :
  ListKeys (AWSClient c) "classroom-" w = ((keys, Some e), w1) ->
  ListClassrooms c format {| world := w; trace := tr |}
  = (("", Some e), {| world := w1; trace := (tr ++ [EvListKeys "classroom-"])%list |}).
Proof. intros Hlisted. run_workflow. rewrite Hlisted. reflexivity. Qed.

Lemma ListClassrooms_listing_error_witness :
  ListClassrooms
    (fake.controller (scenario.listing (Some ["classroom-a"]) (Some "RequestLimitExceeded")))
    "xml" fake.start
  = (("", Some "RequestLimitExceeded"),
     {| world := 1%nat; trace := ([] ++ [EvListKeys "classroom-"])%list |}).
Proof.
  apply (ListClassrooms_listing_error
           (fake.controller (scenario.listing (Some ["classroom-a"])
                                              (Some "RequestLimitExceeded")))
           "xml" 0%nat 1%nat [] (Some ["classroom-a"]) "RequestLimitExceeded").
  reflexivity.
Defined.

(** *** Console lines *)

(** X13. In [CreateClassroom] and [DestroyClassroom] every call that
    reaches a provider comes right after a console line announcing it,
    on every path; [ListClassrooms] and [DescribeClassroom] write no
    console line at all. *)
Theorem provider_calls_are_announced
  {W} (range : gmap string string -> list (string * string))
  (c : Controller W) (name format : string) (number : Z) (st : State W) :
  announced false (new_events (CreateClassroom c name number) st) = true
  /\ announced false (new_events (DestroyClassroom c name) st) = true
  /\ filter is_println (new_events (ListClassrooms c format) st) = []
  /\ filter is_println (new_events (DescribeClassroom range c name format) st) = [].
Proof.
  split; [ | split; [ | split ] ].
  - unfold new_events. create_paths c name st;
      try (rewrite <- ?app_assoc, drop_app_length; reflexivity).
    rewrite drop_all. reflexivity.
  - unfold new_events. run_workflow.
    destruct (DeleteStack (AWSClient c) ("classroom-" +:+ name) (world st))
      as [[e|] w1]; simpl;
      [ rewrite <- ?app_assoc, drop_app_length; reflexivity | ].
    destruct (DeleteKey (AWSClient c) ("classroom-" +:+ name) w1)
      as [[e|] w2]; simpl;
      [ rewrite <- ?app_assoc, drop_app_length; reflexivity | ].
    destruct (DeleteObject (AWSClient c) ("keys/" +:+ "classroom-" +:+ name) w2)
      as [err w3]; simpl.
    rewrite <- ?app_assoc, drop_app_length. reflexivity.
  - unfold new_events. run_workflow.
    destruct (ListKeys (AWSClient c) "classroom-" (world st)) as [[keys [e|]] w1]; simpl;
      [ rewrite drop_app_length; reflexivity | ].
    destruct (bool_decide (format = "json")); simpl;
      [ rewrite drop_app_length; reflexivity | ].
    destruct (bool_decide (format = "plain")); simpl;
      rewrite drop_app_length; reflexivity.
  - unfold new_events. run_workflow.
    destruct (DescribeStack (AWSClient c) ("classroom-" +:+ name) (world st))
      as [[[[status stackID] parameters] [e|]] w1]; simpl;
      [ rewrite <- ?app_assoc, drop_app_length; reflexivity | ].
    destruct (Go.Atoi (Go.index parameters "InstanceCount")) as [n [e|]]; simpl;
      [ rewrite <- ?app_assoc, drop_app_length; reflexivity | ].
    destruct (GetHostsFromStackID (AWSClient c) stackID w1) as [[hosts [e|]] w2]; simpl;
      [ rewrite <- ?app_assoc, drop_app_length; reflexivity | ].
    destruct (bool_decide (format = "json")); simpl;
      [ rewrite <- ?app_assoc, drop_app_length; reflexivity | ].
    destruct (bool_decide (format = "plain")); simpl;
      rewrite <- ?app_assoc, drop_app_length; reflexivity.
Qed.

(** *** Failures while describing *)

(** X14. When [DescribeStack] reports an error, [DescribeClassroom]
    returns it unchanged with an empty text, for every format, and has
    called nothing else: neither [URLForObject] nor the host lookup. *)
Theorem DescribeClassroom_stack_error
  {W} (range : gmap string string -> list (string * string))
  (c : Controller W) (name format : string) (w w1 : W) (tr : list Event)
  (status stackID : string) (parameters : Go.strmap) (e : Go.error) :
  DescribeStack (AWSClient c) ("classroom-" +:+ name) w
  = ((status, stackID, parameters, Some e), w1) ->
  DescribeClassroom range c name format {| world := w; trace := tr |}
  = (("", Some e),
     {| world := w1; trace := (tr ++ [EvDescribeStack ("classroom-" +:+ name)])%list |}).
Proof. intros Hdescribed. run_workflow. rewrite Hdescribed. reflexivity. Qed.

Lemma DescribeClassroom_stack_error_witness :
  DescribeClassroom map_to_list
    (fake.controller (scenario.describing (Some {[ "InstanceCount" := "3" ]})
                                          (Some "stack does not exist")
                                          (None, None)))
    "demo" "json" fake.start
  = (("", Some "stack does not exist"),
     {| world := 1%nat;
        trace := ([] ++ [EvDescribeStack ("classroom-" +:+ "demo")])%list |}).
Proof.
  apply (DescribeClassroom_stack_error map_to_list
           (fake.controller (scenario.describing (Some {[ "InstanceCount" := "3" ]})
                                                 (Some "stack does not exist")
                                                 (None, None)))
           "demo" "json" 0%nat 1%nat [] "CREATE_COMPLETE" "stack-id"
           (Some {[ "InstanceCount" := "3" ]}) "stack does not exist").
  reflexivity.
Defined.

(** X15. When the host lookup reports an error, [DescribeClassroom]
    returns an empty text and the error with the context
    [error fetching hosts for stack: ] put before its message, for every
    format; the hosts that came with the error are dropped. *)
Theorem DescribeClassroom_hosts_error
  {W} (range : gmap string string -> list (string * string))
  (c : Controller W) (name format : string) (w w1 w2 : W) (tr : list Event)
  (status stackID : string) (parameters hosts : Go.strmap) (number : Z)
  (e : Go.error) :
  DescribeStack (AWSClient c) ("classroom-" +:+ name) w
  = ((status, stackID, parameters, None), w1) ->
  Go.Atoi (Go.index parameters "InstanceCount") = (number, None) ->
  GetHostsFromStackID (AWSClient c) stackID w1 = ((hosts, Some e), w2) ->
  DescribeClassroom range c name format {| world := w; trace := tr |}
  = (("", Some ("error fetching hosts for stack: " +:+ e)),
     {| world := w2;
        trace := (tr ++ [EvDescribeStack ("classroom-" +:+ name);
                         EvURLForObject ("keys/" +:+ "classroom-" +:+ name);
                         EvGetHostsFromStackID stackID])%list |}).
Proof.
  intros Hdescribed Hcount Hhosts. run_workflow. rewrite Hdescribed. simpl.
  rewrite Hcount. simpl. rewrite Hhosts. simpl. rewrite <- !app_assoc. reflexivity.
Qed.

Lemma DescribeClassroom_hosts_error_witness :
  DescribeClassroom map_to_list
    (fake.controller (scenario.describing (Some {[ "InstanceCount" := "3" ]}) None
                                          (Some {[ "vm-0" := "10.0.0.1" ]}, Some "timeout")))
    "demo" "plain" fake.start
  = (("", Some "error fetching hosts for stack: timeout"),
     {| world := 2%nat;
        trace := ([] ++ [EvDescribeStack ("classroom-" +:+ "demo");
                         EvURLForObject ("keys/" +:+ "classroom-" +:+ "demo");
                         EvGetHostsFromStackID "stack-id"])%list |}).
Proof.
  apply (DescribeClassroom_hosts_error map_to_list
           (fake.controller (scenario.describing (Some {[ "InstanceCount" := "3" ]}) None
                                                 (Some {[ "vm-0" := "10.0.0.1" ]},
                                                  Some "timeout")))
           "demo" "plain" 0%nat 1%nat 2%nat [] "CREATE_COMPLETE" "stack-id"
           (Some {[ "InstanceCount" := "3" ]}) (Some {[ "vm-0" := "10.0.0.1" ]}) 3
           "timeout").
  - reflexivity.
  - vm_compute. reflexivity.
  - reflexivity.
Defined.

(** *** The instance count, from creation to description *)

Lemma CreateClassroom_stack_event {W} (c : Controller W) name number (st : State W)
  (n template : string) (parameters : Go.strmap) :
  EvCreateStack n template parameters ∈ new_events (CreateClassroom c name number) st ->
  exists ami, parameters = stack_parameters ami ("classroom-" +:+ name) number.
Proof.
  unfold new_events. create_paths c name st;
    try (rewrite <- ?app_assoc, drop_app_length);
    try rewrite drop_all;
    intros Hin;
    repeat (apply elem_of_cons in Hin as [Heq | Hin]; [ try discriminate Heq | ]);
    try (apply elem_of_nil in Hin; contradiction).
  injection Heq as -> -> ->. exists ami. reflexivity.
Qed.

(** X16. The instance count survives the trip through the stack: when
    the parameters [DescribeStack] reports are the ones some run of
    [CreateClassroom] has passed to [CreateStack] for the count [number],
    an [int], [DescribeClassroom] reads [number] back and shows it, in
    the JSON output as well as in the plain one. *)
Theorem DescribeClassroom_reads_count_of_CreateClassroom
  {W W'} (range : gmap string string -> list (string * string))
  (c : Controller W) (c' : Controller W') (name : string) (number : Z)
  (st : State W) (w w1 w2 : W') (tr : list Event)
  (n template status stackID : string) (parameters hosts : Go.strmap) :
  Go.minInt <= number <= Go.maxInt ->
  EvCreateStack n template parameters ∈ new_events (CreateClassroom c name number) st ->
  DescribeStack (AWSClient c') ("classroom-" +:+ name) w
  = ((status, stackID, parameters, None), w1) ->
  GetHostsFromStackID (AWSClient c') stackID w1 = ((hosts, None), w2) ->
  let url := URLForObject (AWSClient c') ("keys/" +:+ "classroom-" +:+ name) in
  let st' := {| world := w; trace := tr |} in
  (DescribeClassroom range c' name "json" st').1
  = (Go.render 0
       (Go.JObject [("status", Go.JString status);
                    ("number", Go.JNumber number);
                    ("ssh_key", Go.JString url);
                    ("hosts", Go.marshal_strmap hosts)]), None)
  /\ (DescribeClassroom range c' name "plain" st').1
     = ("status: " +:+ status +:+ Go.newline
        +:+ "number: " +:+ Go.Itoa number +:+ Go.newline
        +:+ "ssh_key: " +:+ url +:+ Go.newline
        +:+ "hosts:" +:+ Go.newline
        +:+ Go.Join (map host_line (range_strmap range hosts)) Go.newline, None).
Proof.
  intros Hrange Hevent Hdescribed Hhosts url st'. subst url st'.
  destruct (CreateClassroom_stack_event c name number st n template parameters Hevent)
    as [ami ->].
  pose proof (InstanceCount_round_trips ami ("classroom-" +:+ name) number Hrange)
    as Hcount.
  rewrite !(DescribeClassroom_rendered range c' name _ w w1 tr status stackID _
              Hdescribed number hosts w2 Hcount Hhosts).
  split; reflexivity.
Qed.

Lemma DescribeClassroom_reads_count_of_CreateClassroom_witness :
  (DescribeClassroom map_to_list
     (fake.controller
        (scenario.describing (stack_parameters "ami-1234" "classroom-demo" 7) None
                             (Some {[ "vm-0" := "10.0.0.1" ]}, None)))
     "demo" "json" fake.start).1
  = (Go.render 0
       (Go.JObject [("status", Go.JString "CREATE_COMPLETE");
                    ("number", Go.JNumber 7);
                    ("ssh_key", Go.JString "https://s3.example/keys/classroom-demo");
                    ("hosts", Go.marshal_strmap (Some {[ "vm-0" := "10.0.0.1" ]}))]),
     None).
Proof.
  refine (proj1 (DescribeClassroom_reads_count_of_CreateClassroom map_to_list
                   (fake.controller fake.all_ok)
                   (fake.controller
                      (scenario.describing (stack_parameters "ami-1234" "classroom-demo" 7)
                                           None (Some {[ "vm-0" := "10.0.0.1" ]}, None)))
                   "demo" 7 fake.start 0%nat 1%nat 2%nat []
                   "classroom-demo" "{}" "CREATE_COMPLETE" "stack-id"
                   (stack_parameters "ami-1234" "classroom-demo" 7)
                   (Some {[ "vm-0" := "10.0.0.1" ]}) _ _ _ _)).
  - vm_compute. split; discriminate.
  - vm_compute. set_solver.
  - reflexivity.
  - reflexivity.
Defined.

(** X17. A [DescribeClassroom] that reports no error has found, under
    [InstanceCount], an optional sign followed by nothing but decimal
    digits, at least one: a missing parameter, an empty one, or one with
    a space, a letter or a decimal point never gets through. *)
Theorem DescribeClassroom_success_means_numeral
  {W} (range : gmap string string -> list (string * string))
  (c : Controller W) (name format : string) (w w1 : W) (tr : list Event)
  (status stackID : string) (parameters : Go.strmap) :
  DescribeStack (AWSClient c) ("classroom-" +:+ name) w
  = ((status, stackID, parameters, None), w1) ->
  (DescribeClassroom range c name format {| world := w; trace := tr |}).1.2 = None ->
  exists sign digits,
    Go.index2 parameters "InstanceCount" = (sign +:+ digits, true)
    /\ (sign = "" \/ sign = "+" \/ sign = "-")
    /\ digits <> ""
    /\ Go.all_bytes Go.is_digit digits = true.
Proof.
  intros Hdescribed Hok.
  destruct (Go.Atoi (Go.index parameters "InstanceCount")) as [number [e|]] eqn:Hcount.
  - rewrite (DescribeClassroom_count_unreadable range c name format w w1 tr status
               stackID parameters Hdescribed) in Hok.
    + discriminate Hok.
    + rewrite Hcount. reflexivity.
  - destruct (Atoi_accepts_only_numerals _ _ Hcount)
      as (sign & digits & Hs & Hsign & Hne & Hdigits & _).
    exists sign, digits.
    split; [ | split; [ exact Hsign | split; [ exact Hne | exact Hdigits ] ] ].
    unfold Go.index in Hs. unfold Go.index2 in *.
    destruct parameters as [t|]; simpl in Hs.
    + destruct (t !! "InstanceCount") as [v|]; simpl in Hs.
      * rewrite Hs. reflexivity.
      * destruct sign; [ destruct digits; [ contradiction Hne; reflexivity | discriminate Hs ]
                       | discriminate Hs ].
    + destruct sign; [ destruct digits; [ contradiction Hne; reflexivity | discriminate Hs ]
                     | discriminate Hs ].
Qed.

Lemma DescribeClassroom_success_means_numeral_witness :
  exists sign digits,
    Go.index2 (Some {[ "InstanceCount" := "3" ]}) "InstanceCount" = (sign +:+ digits, true)
    /\ (sign = "" \/ sign = "+" \/ sign = "-")
    /\ digits <> ""
    /\ Go.all_bytes Go.is_digit digits = true.
Proof.
  apply (DescribeClassroom_success_means_numeral map_to_list (fake.controller fake.all_ok)
           "demo" "json" 0%nat 1%nat [] "CREATE_COMPLETE" "stack-id"
           (Some {[ "InstanceCount" := "3" ]})).
  - reflexivity.
  - vm_compute. reflexivity.
Defined.

(** *** The order of the hosts *)

(** X18. Only the plain output depends on the order in which the runtime
    ranges over the hosts: for every other format, ["json"] included,
    and on every path, two runs that differ in nothing but that order
    give the same result and the same trace. *)
Theorem DescribeClassroom_order_matters_only_in_plain
  {W} (range range' : gmap string string -> list (string * string))
  (c : Controller W) (name format : string) (st : State W) :
  format <> "plain" ->
  DescribeClassroom range c name format st = DescribeClassroom range' c name format st.
Proof.
  intros Hformat. run_workflow.
  destruct (DescribeStack (AWSClient c) ("classroom-" +:+ name) (world st))
    as [[[[status stackID] parameters] [e|]] w1]; simpl; [ reflexivity | ].
  destruct (Go.Atoi (Go.index parameters "InstanceCount")) as [n [e|]]; simpl;
    [ reflexivity | ].
  destruct (GetHostsFromStackID (AWSClient c) stackID w1) as [[hosts [e|]] w2]; simpl;
    [ reflexivity | ].
  destruct (bool_decide (format = "json")); simpl; [ reflexivity | ].
  rewrite bool_decide_eq_false_2 by exact Hformat. reflexivity.
Qed.

Lemma DescribeClassroom_order_matters_only_in_plain_witness :
  DescribeClassroom map_to_list (fake.controller fake.all_ok) "demo" "json" fake.start
  = DescribeClassroom scenario.backwards (fake.controller fake.all_ok) "demo" "json"
                      fake.start.
Proof.
  apply (DescribeClassroom_order_matters_only_in_plain map_to_list scenario.backwards
           (fake.controller fake.all_ok) "demo" "json" fake.start).
  discriminate.
Defined.

Example DescribeClassroom_plain_follows_the_order :
  let two_hosts :=
    scenario.describing (Some {[ "InstanceCount" := "2" ]}) None
                        (Some {[ "vm-0" := "10.0.0.1"; "vm-1" := "10.0.0.2" ]}, None) in
  (DescribeClassroom map_to_list (fake.controller two_hosts) "demo" "plain"
                     fake.start).1.1
  <> (DescribeClassroom scenario.backwards (fake.controller two_hosts) "demo" "plain"
                        fake.start).1.1.
Proof. vm_compute. discriminate. Qed.
